(** * (s, S) inventory policy: the discrete-event engine of [app1.py]

    A shallow embedding of the class [InventorySimulation] (lines 19-125 of
    [src/app1.py]) and the properties of its event loop.

    - Python [float] is IEEE binary64: [PrimFloat.float], with the primitive
      operations.  Python [int] is [Z].
    - The object [self] is a record; a method takes the object and returns
      the object it leaves behind.
    - NumPy's global generator is an explicit state threaded through the
      calls; the generator itself ([np.random.seed], [np.random.uniform],
      [np.random.poisson]) and [np.log] are the fields of a class, and
      the development holds for every instance of it.
    - The [while True] loop is a structural recursion on a fuel argument. *)

From Stdlib Require Import ZArith List Floats Lia Bool.
Import ListNotations.

Local Open Scope Z_scope.

(** ** Python arithmetic *)

(** [int] to [float], as Python does when an [int] meets a [float] in an
    arithmetic operator: round to nearest, ties to even.  (For an [int]
    beyond the largest finite binary64 Python raises [OverflowError]; this
    function rounds to an infinity there.  The inventory levels of the
    engine lie between [0] and [S].) *)
Definition float_of_Z (z : Z) : float :=
  SF2Prim (binary_normalize prec emax z 0 false).

(** The builtin [min(a, b)] on two floats: the first argument is kept unless
    the second is strictly smaller. *)
Definition py_min (a b : float) : float :=
  if PrimFloat.ltb b a then b else a.

(** What a method call comes to: it returns, it raises [ZeroDivisionError]
    ([1.0 / self.lam] with [lam == 0]), or the fuel of the model ran out. *)
Inductive outcome (A : Type) : Type :=
| Returned (a : A)
| ZeroDivisionError
| OutOfFuel.
Arguments Returned {A} a.
Arguments ZeroDivisionError {A}.
Arguments OutOfFuel {A}.

(** ** Data *)

(** The [params] dictionary.  ['avg_demand'] is read with [params.get] and
    may be absent.  ['T'] and ['avg_demand'] only ever meet floats (in
    comparisons, a subtraction and as the mean handed to NumPy) and are
    kept as floats. *)
Record Params : Type := mkParams {
  p_s : Z;
  p_S : Z;
  p_T : float;
  p_lam : float;
  p_avg_demand : option float;
  p_L : float;
  p_r : float;
  p_K : float;
  p_c : float;
  p_h : float;
  p_seed : Z
}.

(** The value under the key ['事件类型'] of a log entry. *)
Inductive EventType : Type :=
| Initialization      (* '初始化' *)
| StockoutLoss        (* '缺货损失' *)
| CustomerPurchase    (* '顾客购买' *)
| PurchaseAndOrder    (* '顾客购买并订货' *)
| OrderDelivered.     (* '订单送达' *)

Definition EventType_eqb (a b : EventType) : bool :=
  match a, b with
  | Initialization, Initialization
  | StockoutLoss, StockoutLoss
  | CustomerPurchase, CustomerPurchase
  | PurchaseAndOrder, PurchaseAndOrder
  | OrderDelivered, OrderDelivered => true
  | _, _ => false
  end.

(** The three numbers formatted into the ['备注'] string,
    [f"需求:{D}, 满足:{w}, 丢失:{lost}"]. *)
Record Remark : Type := mkRemark {
  remark_demand : Z;
  remark_satisfied : Z;
  remark_lost : Z
}.

(** One dictionary of [self.history], a row of the returned data frame. *)
Record LogEntry : Type := mkEntry {
  log_time : float;              (* '时间' *)
  log_on_hand : Z;               (* '现有库存' *)
  log_in_transit : Z;            (* '在途订单' *)
  log_event_type : EventType;    (* '事件类型' *)
  log_profit : float;            (* '累计利润' *)
  log_delta : Z;                 (* '变动量' *)
  log_remark : option Remark     (* '备注', present after a stockout only *)
}.

Record Summary : Type := mkSummary {
  final_profit : float;
  total_revenue : float;
  total_ordering_cost : float;
  total_holding_cost : float
}.

(** The object: every attribute that [__init__] and [run] assign. *)
Record InventorySimulation : Type := mkSim {
  self_params : Params;
  self_s : Z;
  self_S : Z;
  self_T : float;
  self_lam : float;
  self_avg_demand : float;
  self_L : float;
  self_r : float;
  self_K : float;
  self_c_unit : float;
  self_h : float;
  self_t : float;
  self_x : Z;
  self_y : Z;
  self_C : float;
  self_H : float;
  self_R : float;
  self_t_C : float;
  self_t_O : float;
  self_history : list LogEntry;
  self_df_log : option (list LogEntry)
}.

(** Assignment to the attributes that change during a run; the attributes
    copied from [params] stay. *)
Definition update (self : InventorySimulation)
    (t : float) (x y : Z) (C H R t_C t_O : float)
    (history : list LogEntry) : InventorySimulation :=
  {| self_params := self_params self;
     self_s := self_s self;
     self_S := self_S self;
     self_T := self_T self;
     self_lam := self_lam self;
     self_avg_demand := self_avg_demand self;
     self_L := self_L self;
     self_r := self_r self;
     self_K := self_K self;
     self_c_unit := self_c_unit self;
     self_h := self_h self;
     self_t := t;
     self_x := x;
     self_y := y;
     self_C := C;
     self_H := H;
     self_R := R;
     self_t_C := t_C;
     self_t_O := t_O;
     self_history := history;
     self_df_log := self_df_log self |}.

(** The assignment [self.df_log = ...] at the end of [run]. *)
Definition set_df_log (self : InventorySimulation)
    (df_log : list LogEntry) : InventorySimulation :=
  {| self_params := self_params self; self_s := self_s self;
     self_S := self_S self; self_T := self_T self;
     self_lam := self_lam self; self_avg_demand := self_avg_demand self;
     self_L := self_L self; self_r := self_r self; self_K := self_K self;
     self_c_unit := self_c_unit self; self_h := self_h self;
     self_t := self_t self; self_x := self_x self; self_y := self_y self;
     self_C := self_C self; self_H := self_H self; self_R := self_R self;
     self_t_C := self_t_C self; self_t_O := self_t_O self;
     self_history := self_history self;
     self_df_log := Some df_log |}.

Definition __init__ (params : Params) : InventorySimulation :=
  {| self_params := params;
     self_s := p_s params;
     self_S := p_S params;
     self_T := p_T params;
     self_lam := p_lam params;
     self_avg_demand :=
       match p_avg_demand params with Some a => a | None => 1%float end;
     self_L := p_L params;
     self_r := p_r params;
     self_K := p_K params;
     self_c_unit := p_c params;
     self_h := p_h params;
     self_t := 0%float;
     self_x := p_S params;
     self_y := 0;
     self_C := 0%float;
     self_H := 0%float;
     self_R := 0%float;
     self_t_C := 0%float;
     self_t_O := infinity;
     self_history := [];
     self_df_log := None |}.

(** The values of the local variables of the customer-arrival branch, kept
    to state properties about them. *)
Record CustomerLocals : Type := mkLocals {
  loc_D : Z;
  loc_w : Z;
  loc_lost : Z;
  loc_triggered_order : bool
}.

(** What one turn of the loop did. *)
Inductive Event : Type :=
| CustomerArrival (loc : CustomerLocals)
| OrderArrival (arrived_qty : Z).

Definition is_trigger (ev : Event) : bool :=
  match ev with
  | CustomerArrival loc => loc_triggered_order loc
  | OrderArrival _ => false
  end.

(** [_calculate_ordering_cost].  The [0] of the guard is an [int]; it is
    only ever added to the float [self.C]. *)
Definition _calculate_ordering_cost (self : InventorySimulation)
    (quantity : Z) : float :=
  if quantity <=? 0 then 0%float
  else (self_K self + self_c_unit self * float_of_Z quantity)%float.

(** The selection [df_result[df_result['事件类型'] == '顾客购买并订货']] with
    which the caller of [run] reads the placed orders off the log
    (line 452). *)
Definition orders_placed (df_result : list LogEntry) : list LogEntry :=
  filter (fun e => EventType_eqb (log_event_type e) PurchaseAndOrder)
         df_result.

(** ** NumPy

    The part of NumPy that the engine calls: the state of the global
    generator with [np.random.seed], [np.random.uniform] and
    [np.random.poisson] as functions on it, and [np.log]. *)
Class NumPy : Type := {
  RandomState : Type;
  np_random_seed : Z -> RandomState;
  np_random_uniform : float -> float -> RandomState -> float * RandomState;
  np_random_poisson : float -> RandomState -> Z * RandomState;
  np_log : float -> float
}.

(** ** The engine *)

Section Engine.

Context {np : NumPy}.

Definition _generate_next_arrival (self : InventorySimulation)
    (g : RandomState) : outcome (float * RandomState) :=
  let '(U, g) := np_random_uniform 0 1 g in
  if PrimFloat.eqb (self_lam self) 0 then ZeroDivisionError
  else
    let inter_arrival := (- (1 / self_lam self) * np_log U)%float in
    Returned (inter_arrival, g).

Definition _generate_demand_size (self : InventorySimulation)
    (g : RandomState) : Z * RandomState :=
  let '(d, g) := np_random_poisson (self_avg_demand self) g in
  (Z.max 1 d, g).

(** The branch [if self.t_C <= self.t_O] of the loop body. *)
Definition customer_arrival (self : InventorySimulation) (g : RandomState)
    : outcome (InventorySimulation * RandomState * CustomerLocals) :=
  let event_time := self_t_C self in
  let H := (self_H self
            + self_h self * float_of_Z (self_x self)
              * (event_time - self_t self))%float in
  let t := event_time in
  let '(D, g) := _generate_demand_size self g in
  let w := Z.min D (self_x self) in
  let lost := D - w in
  let R := (self_R self + float_of_Z w * self_r self)%float in
  let x := self_x self - w in
  let '(y, t_O, triggered_order) :=
    if (x <? self_s self) && (self_y self =? 0)
    then (self_S self - x, (t + self_L self)%float, true)
    else (self_y self, self_t_O self, false) in
  let current_profit := (R - self_C self - H)%float in
  let history :=
    self_history self ++
    [ {| log_time := t;
         log_on_hand := x;
         log_in_transit := y;
         log_event_type :=
           if 0 <? lost then StockoutLoss
           else if negb triggered_order then CustomerPurchase
           else PurchaseAndOrder;
         log_profit := current_profit;
         log_delta := - w;
         log_remark :=
           if 0 <? lost then Some (mkRemark D w lost) else None |} ] in
  match _generate_next_arrival self g with
  | Returned (inter_arrival, g) =>
      Returned (update self t x y (self_C self) H R
                       (t + inter_arrival)%float t_O history,
                g,
                mkLocals D w lost triggered_order)
  | ZeroDivisionError => ZeroDivisionError
  | OutOfFuel => OutOfFuel
  end.

(** The [else] branch of the loop body. *)
Definition order_arrival (self : InventorySimulation)
    : InventorySimulation :=
  let event_time := self_t_O self in
  let H := (self_H self
            + self_h self * float_of_Z (self_x self)
              * (event_time - self_t self))%float in
  let t := event_time in
  let cost_order := _calculate_ordering_cost self (self_y self) in
  let C := (self_C self + cost_order)%float in
  let x := self_x self + self_y self in
  let arrived_qty := self_y self in
  let y := 0 in
  let t_O := infinity in
  let current_profit := (self_R self - C - H)%float in
  update self t x y C H (self_R self) (self_t_C self) t_O
    (self_history self ++
     [ {| log_time := t;
          log_on_hand := x;
          log_in_transit := y;
          log_event_type := OrderDelivered;
          log_profit := current_profit;
          log_delta := arrived_qty;
          log_remark := None |} ]).

(** One turn of [while True]. *)
Inductive step_result : Type :=
| Break
| Raise
| Next (self : InventorySimulation) (g : RandomState) (ev : Event).

Definition step (self : InventorySimulation) (g : RandomState)
    : step_result :=
  let next_event_time := py_min (self_t_C self) (self_t_O self) in
  if PrimFloat.ltb (self_T self) next_event_time then Break
  else if PrimFloat.leb (self_t_C self) (self_t_O self) then
    match customer_arrival self g with
    | Returned (self, g, loc) => Next self g (CustomerArrival loc)
    | _ => Raise
    end
  else Next (order_arrival self) g (OrderArrival (self_y self)).

Fixpoint loop (fuel : nat) (self : InventorySimulation) (g : RandomState)
    : outcome (InventorySimulation * RandomState) :=
  match fuel with
  | O => OutOfFuel
  | S fuel =>
      match step self g with
      | Break => Returned (self, g)
      | Raise => ZeroDivisionError
      | Next self g _ => loop fuel self g
      end
  end.

(** [run] up to the loop: seed, reset, first arrival, first log entry. *)
Definition run_init (self : InventorySimulation)
    : outcome (InventorySimulation * RandomState) :=
  let g := np_random_seed (p_seed (self_params self)) in
  let self := update self 0%float (self_S self) 0 0%float 0%float 0%float
                     (self_t_C self) (self_t_O self) (self_history self) in
  match _generate_next_arrival self g with
  | Returned (t_C, g) =>
      let self := update self (self_t self) (self_x self) (self_y self)
                    (self_C self) (self_H self) (self_R self)
                    t_C infinity
                    (self_history self ++
                     [ {| log_time := 0%float;
                          log_on_hand := self_x self;
                          log_in_transit := self_y self;
                          log_event_type := Initialization;
                          log_profit := 0%float;
                          log_delta := 0;
                          log_remark := None |} ]) in
      Returned (self, g)
  | ZeroDivisionError => ZeroDivisionError
  | OutOfFuel => OutOfFuel
  end.

(** [run] after the loop: the last holding cost, the data frame, the
    summary. *)
Definition run_finish (self : InventorySimulation)
    : InventorySimulation * (list LogEntry * Summary) :=
  let H := (self_H self
            + self_h self * float_of_Z (self_x self)
              * (self_T self - self_t self))%float in
  let final_profit := (self_R self - self_C self - H)%float in
  let df_log := self_history self in
  let summary :=
    {| final_profit := final_profit;
       total_revenue := self_R self;
       total_ordering_cost := self_C self;
       total_holding_cost := H |} in
  let self := update self (self_t self) (self_x self) (self_y self)
                (self_C self) H (self_R self)
                (self_t_C self) (self_t_O self) (self_history self) in
  (set_df_log self df_log, (df_log, summary)).

Definition run (fuel : nat) (self : InventorySimulation)
    : outcome (InventorySimulation * (list LogEntry * Summary)) :=
  match run_init self with
  | Returned (self, g) =>
      match loop fuel self g with
      | Returned (self, _) => Returned (run_finish self)
      | ZeroDivisionError => ZeroDivisionError
      | OutOfFuel => OutOfFuel
      end
  | ZeroDivisionError => ZeroDivisionError
  | OutOfFuel => OutOfFuel
  end.

(** The state after [n] turns of the loop (fewer when the loop has left
    before), and the events of these turns: every state a run goes
    through, whether or not the loop ever breaks. *)
Fixpoint state_after (n : nat) (self : InventorySimulation)
    (g : RandomState) : InventorySimulation * RandomState :=
  match n with
  | O => (self, g)
  | S n =>
      match step self g with
      | Next self g _ => state_after n self g
      | _ => (self, g)
      end
  end.

Fixpoint events (n : nat) (self : InventorySimulation) (g : RandomState)
    : list Event :=
  match n with
  | O => []
  | S n =>
      match step self g with
      | Next self g ev => ev :: events n self g
      | _ => []
      end
  end.

End Engine.

Arguments Break {np}.
Arguments Raise {np}.

(** ** The callers of the engine

    The loops of the page that call [run] (lines 517-551 and 581-603):
    the sweep of one parameter and the search over the grid of [(s, S)].
    The widgets and the plots are left out. *)

(** The builtin [range(start, stop, step)] for a positive [step]. *)
Definition py_range (start stop step : Z) : list Z :=
  map (fun i => start + step * Z.of_nat i)
      (seq 0 (Z.to_nat ((stop - start + step - 1) / step))).

(** [p = sim_params.copy()] followed by [p['s'] = val], and the same for
    ['S']. *)
Definition set_s (sim_params : Params) (val : Z) : Params :=
  {| p_s := val; p_S := p_S sim_params; p_T := p_T sim_params;
     p_lam := p_lam sim_params; p_avg_demand := p_avg_demand sim_params;
     p_L := p_L sim_params; p_r := p_r sim_params; p_K := p_K sim_params;
     p_c := p_c sim_params; p_h := p_h sim_params;
     p_seed := p_seed sim_params |}.

Definition set_S (sim_params : Params) (val : Z) : Params :=
  {| p_s := p_s sim_params; p_S := val; p_T := p_T sim_params;
     p_lam := p_lam sim_params; p_avg_demand := p_avg_demand sim_params;
     p_L := p_L sim_params; p_r := p_r sim_params; p_K := p_K sim_params;
     p_c := p_c sim_params; p_h := p_h sim_params;
     p_seed := p_seed sim_params |}.

(** A dictionary [{'s': ..., 'S': ..., 'Profit': ...}] of [heatmap_data]. *)
Record HeatRow : Type := mkRow {
  row_s : Z;
  row_S : Z;
  row_Profit : float
}.

Section Callers.

Context {np : NumPy}.

(** The body shared by the branches of the sensitivity analysis: for each
    [val] of [range_values], a run on a fresh object with the parameter
    assigned, whose final profit and [val] are appended to the two lists. *)
Fixpoint sweep (fuel : nat) (assign : Z -> Params) (range_values : list Z)
    (results_sensitivity : list float) (x_vals : list Z)
    : outcome (list float * list Z) :=
  match range_values with
  | [] => Returned (results_sensitivity, x_vals)
  | val :: range_values =>
      let p := assign val in
      match run fuel (__init__ p) with
      | Returned (_, (_, s)) =>
          sweep fuel assign range_values
                (results_sensitivity ++ [final_profit s]) (x_vals ++ [val])
      | ZeroDivisionError => ZeroDivisionError
      | OutOfFuel => OutOfFuel
      end
  end.

(** The branch [analysis_target == "再订货点 s"]. *)
Definition sensitivity_s (fuel : nat) (sim_params : Params)
    : outcome (list float * list Z) :=
  let current_S := p_S sim_params in
  sweep fuel (set_s sim_params) (py_range 0 current_S 1) [] [].

(** The branch [analysis_target == "最大库存 S"]. *)
Definition sensitivity_S (fuel : nat) (sim_params : Params)
    : outcome (list float * list Z) :=
  let current_s := p_s sim_params in
  sweep fuel (set_S sim_params)
        (py_range (current_s + 1) (current_s + 51) 1) [] [].

(** The inner loop of the optimization, [for S_val in S_range]. *)
Fixpoint optimize_S (fuel : nat) (sim_params : Params) (s_val : Z)
    (S_range : list Z) (heatmap_data : list HeatRow)
    (best_profit : float) (best_config : Z * Z)
    : outcome (list HeatRow * float * (Z * Z)) :=
  match S_range with
  | [] => Returned (heatmap_data, best_profit, best_config)
  | S_val :: S_range =>
      let p := set_S (set_s sim_params s_val) S_val in
      match run fuel (__init__ p) with
      | Returned (_, (_, res)) =>
          let profit := final_profit res in
          let heatmap_data := heatmap_data ++ [mkRow s_val S_val profit] in
          if PrimFloat.ltb best_profit profit
          then optimize_S fuel sim_params s_val S_range heatmap_data
                          profit (s_val, S_val)
          else optimize_S fuel sim_params s_val S_range heatmap_data
                          best_profit best_config
      | ZeroDivisionError => ZeroDivisionError
      | OutOfFuel => OutOfFuel
      end
  end.

(** The outer loop, [for i, s_val in enumerate(s_range)]. *)
Fixpoint optimize_s (fuel : nat) (sim_params : Params) (S_max_search : Z)
    (s_range : list Z) (heatmap_data : list HeatRow)
    (best_profit : float) (best_config : Z * Z)
    : outcome (list HeatRow * float * (Z * Z)) :=
  match s_range with
  | [] => Returned (heatmap_data, best_profit, best_config)
  | s_val :: s_range =>
      let S_range := py_range (s_val + 5) (S_max_search + 1) 5 in
      match optimize_S fuel sim_params s_val S_range heatmap_data
                       best_profit best_config with
      | Returned (heatmap_data, best_profit, best_config) =>
          optimize_s fuel sim_params S_max_search s_range heatmap_data
                     best_profit best_config
      | ZeroDivisionError => ZeroDivisionError
      | OutOfFuel => OutOfFuel
      end
  end.

(** The search started by the button: the rows of the heat map, the best
    profit and the best configuration. *)
Definition optimize (fuel : nat) (sim_params : Params)
    (s_max_search S_max_search : Z)
    : outcome (list HeatRow * float * (Z * Z)) :=
  let heatmap_data := [] in
  let best_profit := neg_infinity in
  let best_config := (0, 0) in
  let s_range := py_range 0 (s_max_search + 1) 2 in
  optimize_s fuel sim_params S_max_search s_range heatmap_data
             best_profit best_config.

End Callers.

(** ** A scripted generator

    An instance of [NumPy] that replays a fixed script of draws, to run the
    engine on concrete traces.  [uniform] scales a scripted draw of [[0, 1)]
    the way NumPy does, [low + (high - low) * u]; an exhausted script keeps
    answering the lower bound, and [0] for a Poisson draw. *)
Module Scripted.

Record Script : Type := mkScript {
  uniforms : list float;
  poissons : list Z
}.

Definition uniform (low high : float) (g : Script) : float * Script :=
  match uniforms g with
  | [] => (low, g)
  | u :: us => ((low + (high - low) * u)%float, mkScript us (poissons g))
  end.

Definition poisson (_ : float) (g : Script) : Z * Script :=
  match poissons g with
  | [] => (0, g)
  | d :: ds => (d, mkScript (uniforms g) ds)
  end.

(** [np.log] on the draws the scripts use, correctly rounded:
    [log(0) = -inf], [log(1/2)], [log(1/4)], [log(1) = 0]. *)
Definition log (u : float) : float :=
  if PrimFloat.eqb u 0 then neg_infinity
  else if PrimFloat.eqb u 0.5 then (-0x1.62e42fefa39efp-1)%float
  else if PrimFloat.eqb u 0.25 then (-0x1.62e42fefa39efp+0)%float
  else if PrimFloat.eqb u 1 then 0%float
  else nan.

(** Every seed starts the script from its beginning. *)
Definition numpy (script : Script) : NumPy :=
  {| RandomState := Script;
     np_random_seed := fun _ => script;
     np_random_uniform := uniform;
     np_random_poisson := poisson;
     np_log := log |}.

End Scripted.

(** ** Concrete runs

    A parameter record and a script: eight events within the horizon (the
    sixth is a stockout that also places an order), then a uniform draw of
    exactly [0]. *)
Definition demo_params : Params :=
  {| p_s := 2; p_S := 4; p_T := 5; p_lam := 1; p_avg_demand := Some 1%float;
     p_L := 0.5; p_r := 50; p_K := 100; p_c := 20; p_h := 1; p_seed := 42 |}.

Definition demo_script : Scripted.Script :=
  {| Scripted.uniforms := [0.5; 0.5; 0.25; 0.5; 0.5; 0]%float;
     Scripted.poissons := [3; 2; 0; 5; 1] |}.

Definition demo_numpy : NumPy := Scripted.numpy demo_script.

Definition demo_self : InventorySimulation := __init__ demo_params.

(** The object and the generator at the head of the loop. *)
Definition demo_start : InventorySimulation * Scripted.Script :=
  Eval vm_compute in
    match @run_init demo_numpy demo_self with
    | Returned r => r
    | _ => (demo_self, demo_script)
    end.

(** What [run] returns: the object it leaves, the log and the summary. *)
Definition demo_outcome
    : InventorySimulation * (list LogEntry * Summary) :=
  Eval vm_compute in
    match @run demo_numpy 20 demo_self with
    | Returned r => r
    | _ => @run_finish demo_self
    end.

(** The first turn of the loop: a demand of [3] takes [x] from [4] to [1],
    below [s = 2], and an order of [3] is placed. *)
Definition demo_first_arrival
    : InventorySimulation * Scripted.Script * CustomerLocals :=
  Eval vm_compute in
    match @customer_arrival demo_numpy (fst demo_start) (snd demo_start) with
    | Returned r => r
    | _ => (demo_self, demo_script, mkLocals 0 0 0 false)
    end.

(** A state of the same engine with a full stock and no order in transit,
    met by a demand of [5]: four units are sold, one is lost, and the stock
    of [0] places an order of [4]. *)
Definition stockout_state : InventorySimulation :=
  update demo_self 3.25 4 0 320 8 300 3.5 infinity [].

Definition stockout_script : Scripted.Script :=
  {| Scripted.uniforms := [0.5]%float; Scripted.poissons := [5] |}.

(** An order of [10] units about to arrive, with [K = 100] and [c = 20]. *)
Definition delivery_params : Params :=
  {| p_s := 5; p_S := 12; p_T := 5; p_lam := 1; p_avg_demand := Some 1%float;
     p_L := 0.5; p_r := 50; p_K := 100; p_c := 20; p_h := 1; p_seed := 42 |}.

Definition delivery_state : InventorySimulation :=
  update (__init__ delivery_params) 1 2 10 0 8 500 1.5 1.25 [].

(** Reorder point zero: three arrivals, the second and third with a
    stockout, then a uniform draw of [0]. *)
Definition zero_params : Params :=
  {| p_s := 0; p_S := 2; p_T := 5; p_lam := 1; p_avg_demand := Some 1%float;
     p_L := 0.5; p_r := 50; p_K := 100; p_c := 20; p_h := 1; p_seed := 7 |}.

Definition zero_script : Scripted.Script :=
  {| Scripted.uniforms := [0.5; 0.5; 0.5; 0]%float;
     Scripted.poissons := [1; 3; 1] |}.

Definition zero_numpy : NumPy := Scripted.numpy zero_script.

Definition zero_start : InventorySimulation * Scripted.Script :=
  Eval vm_compute in
    match @run_init zero_numpy (__init__ zero_params) with
    | Returned r => r
    | _ => (__init__ zero_params, zero_script)
    end.

(** A generator whose first uniform draw is exactly [0]. *)
Definition degenerate_script : Scripted.Script :=
  {| Scripted.uniforms := [0; 0.5]%float; Scripted.poissons := [] |}.

Definition degenerate_numpy : NumPy := Scripted.numpy degenerate_script.

Definition degenerate_start : InventorySimulation * Scripted.Script :=
  Eval vm_compute in
    match @run_init degenerate_numpy demo_self with
    | Returned r => r
    | _ => (demo_self, degenerate_script)
    end.

(** The run with reorder point zero, and parameters with a rate of zero. *)
Definition zero_outcome
    : InventorySimulation * (list LogEntry * Summary) :=
  Eval vm_compute in
    match @run zero_numpy 20 (__init__ zero_params) with
    | Returned r => r
    | _ => @run_finish (__init__ zero_params)
    end.


(** The sweep over [s] and the search over the grid up to [s = 10] and
    [S = 10], on the parameters and the script of the first run. *)
Definition demo_sweep : list float * list Z :=
  Eval vm_compute in
    match @sensitivity_s demo_numpy 20 demo_params with
    | Returned r => r
    | _ => ([], [])
    end.

Definition demo_search : list HeatRow * float * (Z * Z) :=
  Eval vm_compute in
    match @optimize demo_numpy 20 demo_params 10 10 with
    | Returned r => r
    | _ => ([], neg_infinity, (0, 0))
    end.

(** The parameters of the first run with a horizon of [0.5], before the
    first arrival of the script at [0.69]. *)
Definition short_params : Params :=
  {| p_s := 2; p_S := 4; p_T := 0.5; p_lam := 1;
     p_avg_demand := Some 1%float; p_L := 0.5; p_r := 50; p_K := 100;
     p_c := 20; p_h := 1; p_seed := 42 |}.

Definition short_start : InventorySimulation * Scripted.Script :=
  Eval vm_compute in
    match @run_init demo_numpy (__init__ short_params) with
    | Returned r => r
    | _ => (__init__ short_params, demo_script)
    end.

(** ** Predicates of the statements *)

(** The parameters the engine is written for: [S > s >= 0]. *)
Definition valid_levels (self : InventorySimulation) : Prop :=
  0 <= self_s self < self_S self.

(** A logged state within the bounds: nothing negative, and on-hand plus
    in-transit at most the target level. *)
Definition entry_non_negative (e : LogEntry) : Prop :=
  0 <= log_on_hand e /\ 0 <= log_in_transit e.

Definition entry_within_target (S : Z) (e : LogEntry) : Prop :=
  log_on_hand e + log_in_transit e <= S.

(** The invariant of the loop on the inventory levels, with a property [Q]
    of the entries logged so far. *)
Definition stock_invariant (Q : LogEntry -> Prop) (S : Z)
    (self : InventorySimulation) : Prop :=
  self_S self = S /\
  0 <= self_x self /\ 0 <= self_y self /\
  self_x self + self_y self <= S /\
  Forall Q (self_history self).

(** The attributes that [__init__] copies from [params]. *)
Definition config (self : InventorySimulation) :=
  (self_params self, self_s self, self_S self, self_T self, self_lam self,
   self_avg_demand self, self_L self, self_r self, self_K self,
   self_c_unit self, self_h self).

(** The log entry that the customer-arrival branch appends, from the state
    it leaves and its local variables. *)
Definition customer_entry (self' : InventorySimulation)
    (loc : CustomerLocals) : LogEntry :=
  {| log_time := self_t self';
     log_on_hand := self_x self';
     log_in_transit := self_y self';
     log_event_type :=
       if 0 <? loc_lost loc then StockoutLoss
       else if negb (loc_triggered_order loc) then CustomerPurchase
       else PurchaseAndOrder;
     log_profit := (self_R self' - self_C self' - self_H self')%float;
     log_delta := - loc_w loc;
     log_remark :=
       if 0 <? loc_lost loc
       then Some (mkRemark (loc_D loc) (loc_w loc) (loc_lost loc))
       else None |}.

(** A float that is a number: it compares equal to itself. *)
Definition is_number (f : float) : Prop := PrimFloat.eqb f f = true.

(** At most one order outstanding, read off the events of a run: no order is
    placed while one is [outstanding]; an arrival clears it. *)
Fixpoint one_order_at_a_time (outstanding : bool) (evs : list Event) : bool :=
  match evs with
  | [] => true
  | CustomerArrival loc :: evs =>
      if loc_triggered_order loc
      then negb outstanding && one_order_at_a_time true evs
      else one_order_at_a_time outstanding evs
  | OrderArrival _ :: evs => one_order_at_a_time false evs
  end.

(** The object [self] with the list [h] in front of its history and [d] as
    its data frame: what a run on a used object sees, compared with a run
    on a fresh one. *)
Definition rebase (h : list LogEntry) (d : option (list LogEntry))
    (self : InventorySimulation) : InventorySimulation :=
  {| self_params := self_params self; self_s := self_s self;
     self_S := self_S self; self_T := self_T self;
     self_lam := self_lam self; self_avg_demand := self_avg_demand self;
     self_L := self_L self; self_r := self_r self; self_K := self_K self;
     self_c_unit := self_c_unit self; self_h := self_h self;
     self_t := self_t self; self_x := self_x self; self_y := self_y self;
     self_C := self_C self; self_H := self_H self; self_R := self_R self;
     self_t_C := self_t_C self; self_t_O := self_t_O self;
     self_history := h ++ self_history self;
     self_df_log := d |}.

(** The first entry of every run. *)
Definition initial_entry (S : Z) : LogEntry :=
  {| log_time := 0%float; log_on_hand := S; log_in_transit := 0;
     log_event_type := Initialization; log_profit := 0%float;
     log_delta := 0; log_remark := None |}.

(** The invariant of a run with [s = 0]: the stock is non-negative, no
    order is under way, and the entries logged after [h0] show no order. *)
Definition never_ordered (h0 : list LogEntry)
    (self : InventorySimulation) : Prop :=
  self_s self = 0 /\ 0 <= self_x self /\ self_y self = 0 /\
  self_t_O self = infinity /\
  exists new,
    self_history self = h0 ++ new /\
    Forall (fun e => log_in_transit e = 0 /\
                     log_event_type e <> PurchaseAndOrder) new.

(** ** Predicates of the further properties *)

(** The label and the inventory change that the loop logs for an event. *)
Definition event_label (ev : Event) : EventType :=
  match ev with
  | CustomerArrival loc =>
      if 0 <? loc_lost loc then StockoutLoss
      else if negb (loc_triggered_order loc) then CustomerPurchase
      else PurchaseAndOrder
  | OrderArrival _ => OrderDelivered
  end.

Definition event_delta (ev : Event) : Z :=
  match ev with
  | CustomerArrival loc => - loc_w loc
  | OrderArrival arrived_qty => arrived_qty
  end.

(** The sum of the column ['变动量'] over a list of entries. *)
Definition total_delta (entries : list LogEntry) : Z :=
  fold_right (fun e acc => log_delta e + acc) 0 entries.

(** An order arrival that brings something. *)
Definition is_delivery (ev : Event) : bool :=
  match ev with
  | CustomerArrival _ => false
  | OrderArrival arrived_qty => 0 <? arrived_qty
  end.

(** What the entry of a customer arrival says, by its label: a stockout
    leaves no stock and has the remark on demand, sale and loss; a purchase
    has no remark and sold at least one unit. *)
Definition customer_entry_consistent (e : LogEntry) : Prop :=
  match log_event_type e with
  | StockoutLoss =>
      log_on_hand e = 0 /\
      exists D w lost,
        log_remark e = Some (mkRemark D w lost) /\
        1 <= D /\ w = - log_delta e /\ lost = D - w /\ 0 < lost
  | CustomerPurchase | PurchaseAndOrder =>
      log_remark e = None /\ log_delta e <= -1
  | Initialization | OrderDelivered => log_remark e = None
  end.

(** What the entries about orders say, for reorder point [s] and target
    level [S]: an order is placed below [s] and fills up to [S]; a plain
    purchase with nothing in transit leaves the stock at [s] or above; a
    delivery leaves nothing in transit and no more arrived than is on
    hand. *)
Definition order_entry_consistent (s S : Z) (e : LogEntry) : Prop :=
  match log_event_type e with
  | PurchaseAndOrder =>
      log_on_hand e < s /\ log_on_hand e + log_in_transit e = S /\
      0 < log_in_transit e
  | CustomerPurchase => log_in_transit e = 0 -> s <= log_on_hand e
  | OrderDelivered =>
      log_in_transit e = 0 /\ 0 <= log_delta e <= log_on_hand e
  | Initialization | StockoutLoss => True
  end.

(** The last entry of the history shows the state of the object. *)
Definition last_entry_shows_state (self : InventorySimulation) : Prop :=
  exists h e,
    self_history self = h ++ [e] /\
    log_time e = self_t self /\
    log_on_hand e = self_x self /\
    log_in_transit e = self_y self /\
    log_profit e = (self_R self - self_C self - self_H self)%float.

(** A row of the heat map within the grid of the search. *)
Definition row_in_grid (s_max_search S_max_search : Z) (row : HeatRow)
    : Prop :=
  0 <= row_s row <= s_max_search /\
  row_s row + 5 <= row_S row <= S_max_search /\
  (row_s row) mod 2 = 0 /\ (row_S row - row_s row) mod 5 = 0.

(** The label of an entry logged by the customer-arrival branch. *)
Definition is_customer_label (l : EventType) : bool :=
  match l with
  | StockoutLoss | CustomerPurchase | PurchaseAndOrder => true
  | Initialization | OrderDelivered => false
  end.

(** The row comes from a run of the engine on a fresh object with its pair
    [(s, S)] assigned. *)
Definition row_of_run {np : NumPy} (fuel : nat) (sim_params : Params)
    (row : HeatRow) : Prop :=
  exists self' log res,
    run fuel (__init__ (set_S (set_s sim_params (row_s row)) (row_S row)))
      = Returned (self', (log, res)) /\
    row_Profit row = final_profit res.

(** The invariant of the two loops of the search on what they accumulate:
    the rows, and the best profit and configuration among them. *)
Definition search_invariant {np : NumPy} (fuel : nat) (sim_params : Params)
    (s_max_search S_max_search : Z)
    (acc : list HeatRow * float * (Z * Z)) : Prop :=
  let '(heatmap_data, best_profit, best_config) := acc in
  Forall (row_in_grid s_max_search S_max_search) heatmap_data /\
  Forall (row_of_run fuel sim_params) heatmap_data /\
  Forall (fun row => PrimFloat.ltb best_profit (row_Profit row) = false)
         heatmap_data /\
  ((best_profit = neg_infinity /\ best_config = (0, 0)) \/
   (exists row, In row heatmap_data /\
                row_Profit row = best_profit /\
                best_config = (row_s row, row_S row))).

(** The profit of a sweep at [val] comes from a run of the engine on a
    fresh object with the parameters [assign val]. *)
Definition profit_of_run {np : NumPy} (fuel : nat) (assign : Z -> Params)
    (val : Z) (profit : float) : Prop :=
  exists self' log res,
    run fuel (__init__ (assign val)) = Returned (self', (log, res)) /\
    profit = final_profit res.

(** ** Properties *)

Section Properties.

Context {np : NumPy}.

(** *** The two handlers, field by field *)

Lemma customer_arrival_fields self g self' g' loc :
  customer_arrival self g = Returned (self', g', loc) ->
  1 <= loc_D loc /\
  loc_w loc = Z.min (loc_D loc) (self_x self) /\
  loc_lost loc = loc_D loc - loc_w loc /\
  loc_triggered_order loc =
    ((self_x self - loc_w loc <? self_s self) && (self_y self =? 0)) /\
  self_x self' = self_x self - loc_w loc /\
  self_y self' =
    (if loc_triggered_order loc then self_S self - self_x self'
     else self_y self) /\
  self_t self' = self_t_C self /\
  self_t_O self' =
    (if loc_triggered_order loc then (self_t self' + self_L self)%float
     else self_t_O self) /\
  self_C self' = self_C self /\
  self_R self' = (self_R self + float_of_Z (loc_w loc) * self_r self)%float /\
  self_H self' =
    (self_H self + self_h self * float_of_Z (self_x self)
                   * (self_t_C self - self_t self))%float /\
  config self' = config self /\
  self_history self' = self_history self ++ [customer_entry self' loc].
Proof.
  unfold customer_arrival, _generate_demand_size, _generate_next_arrival.
  destruct (np_random_poisson _ g) as [d g1].
  destruct (np_random_uniform 0 1 g1) as [U g2].
  destruct (PrimFloat.eqb (self_lam self) 0);
    [destruct (_ && _); discriminate|].
  destruct ((self_x self - Z.min (Z.max 1 d) (self_x self) <? self_s self)
            && (self_y self =? 0)) eqn:Etrig;
    intros Hret; inversion Hret; subst; clear Hret; cbn;
    rewrite ?Etrig; repeat split; lia.
Qed.

Lemma order_arrival_fields self :
  let self' := order_arrival self in
  self_x self' = self_x self + self_y self /\
  self_y self' = 0 /\
  self_t self' = self_t_O self /\
  self_t_O self' = infinity /\
  self_t_C self' = self_t_C self /\
  self_C self' =
    (self_C self + _calculate_ordering_cost self (self_y self))%float /\
  self_R self' = self_R self /\
  config self' = config self /\
  self_history self' =
    self_history self ++
    [ {| log_time := self_t self';
         log_on_hand := self_x self';
         log_in_transit := 0;
         log_event_type := OrderDelivered;
         log_profit := (self_R self' - self_C self' - self_H self')%float;
         log_delta := self_y self;
         log_remark := None |} ].
Proof. cbn. repeat split. Qed.

(** *** The loop *)

Lemma step_cases self g self' g' ev :
  step self g = Next self' g' ev ->
  (exists loc, ev = CustomerArrival loc /\
               PrimFloat.leb (self_t_C self) (self_t_O self) = true /\
               customer_arrival self g = Returned (self', g', loc)) \/
  (ev = OrderArrival (self_y self) /\
   PrimFloat.leb (self_t_C self) (self_t_O self) = false /\
   self' = order_arrival self /\ g' = g).
Proof.
  unfold step.
  destruct (PrimFloat.ltb _ _); [discriminate|].
  destruct (PrimFloat.leb _ _).
  - destruct (customer_arrival self g) as [[[s1 g1] loc]| |] eqn:E;
      try discriminate.
    intros H; inversion H; subst. left. exists loc. auto.
  - intros H; inversion H; subst. right. auto.
Qed.

(** A property kept by every turn of the loop holds in every state the
    run goes through. *)
Lemma state_after_invariant (P : InventorySimulation -> Prop) :
  (forall self g self' g' ev,
      P self -> step self g = Next self' g' ev -> P self') ->
  forall n self g, P self -> P (fst (state_after n self g)).
Proof.
  intros Hstep n. induction n as [|n IH]; intros self g HP; cbn; auto.
  destruct (step self g) as [| |self' g' ev] eqn:E; cbn; auto.
  apply IH. eapply Hstep; eauto.
Qed.

(** When the loop leaves, it leaves in the state after [fuel] turns. *)
Lemma loop_state_after fuel : forall self g r,
  loop fuel self g = Returned r -> r = state_after fuel self g.
Proof.
  induction fuel as [|n IH]; intros self g r; cbn; [discriminate|].
  destruct (step self g) as [| |self' g' ev]; try discriminate.
  - intros H; inversion H; reflexivity.
  - apply IH.
Qed.

Lemma run_init_fields self self0 g0 :
  run_init self = Returned (self0, g0) ->
  self_x self0 = self_S self /\ self_y self0 = 0 /\
  self_t self0 = 0%float /\ self_t_O self0 = infinity /\
  self_C self0 = 0%float /\ self_H self0 = 0%float /\
  self_R self0 = 0%float /\
  config self0 = config self /\
  self_history self0 =
    self_history self ++ [initial_entry (self_S self)].
Proof.
  unfold run_init, _generate_next_arrival. cbn.
  destruct (np_random_uniform 0 1 _) as [U g1].
  destruct (PrimFloat.eqb (self_lam self) 0); [discriminate|].
  intros H; inversion H; subst; cbn. repeat split.
Qed.

Lemma valid_levels_step self g self' g' ev :
  valid_levels self ->
  step self g = Next self' g' ev ->
  valid_levels self'.
Proof.
  unfold valid_levels. intros Hv Hstep.
  apply step_cases in Hstep as [(loc & -> & _ & Hc) | (-> & _ & -> & ->)].
  - apply customer_arrival_fields in Hc
      as (_ & _ & _ & _ & _ & _ & _ & _ & _ & _ & _ & Hcfg & _).
    injection Hcfg as _ Hs HS _ _ _ _ _ _ _ _. lia.
  - exact Hv.
Qed.

(** *** The invariant on the inventory levels *)

Lemma valid_levels_run_init self self0 g0 :
  valid_levels self ->
  run_init self = Returned (self0, g0) ->
  valid_levels self0.
Proof.
  unfold valid_levels. intros Hv Hinit.
  apply run_init_fields in Hinit
    as (_ & _ & _ & _ & _ & _ & _ & Hcfg & _).
  injection Hcfg as _ Hs HS _ _ _ _ _ _ _ _. lia.
Qed.

Section StockInvariant.

Variable Q : LogEntry -> Prop.
Variable S : Z.
Hypothesis Q_bounds :
  forall e, entry_non_negative e -> entry_within_target S e -> Q e.

Lemma stock_invariant_append self h x y e :
  Forall Q (self_history self) ->
  h = self_history self ++ [e] ->
  log_on_hand e = x -> log_in_transit e = y ->
  0 <= x -> 0 <= y -> x + y <= S ->
  Forall Q h.
Proof.
  intros HQ -> Hx Hy Hx0 Hy0 Hxy.
  apply Forall_app; split; [assumption|].
  constructor; [|constructor].
  apply Q_bounds; unfold entry_non_negative, entry_within_target; lia.
Qed.

Lemma stock_invariant_step self g self' g' ev :
  stock_invariant Q S self ->
  step self g = Next self' g' ev ->
  stock_invariant Q S self'.
Proof.
  intros (HS & Hx & Hy & Hxy & HQ) Hstep.
  apply step_cases in Hstep as [(loc & -> & _ & Hc) | (-> & _ & -> & ->)].
  - apply customer_arrival_fields in Hc
      as (HD & Hw & _ & Htrig & Hx' & Hy' & _ & _ & _ & _ & _ & Hcfg & Hh).
    injection Hcfg as _ _ HS' _ _ _ _ _ _ _ _.
    assert (Hxy' : 0 <= self_x self' /\ 0 <= self_y self' /\
                   self_x self' + self_y self' <= S).
    { rewrite Hy', Hx', Htrig.
      destruct ((self_x self - loc_w loc <? self_s self)
                && (self_y self =? 0)) eqn:E.
      - apply andb_prop in E as [_ E2].
        apply Z.eqb_eq in E2. lia.
      - lia. }
    unfold stock_invariant. repeat split; try lia.
    eapply stock_invariant_append; eauto; cbn; lia.
  - destruct (order_arrival_fields self)
      as (Hx' & Hy' & _ & _ & _ & _ & _ & _ & Hh).
    unfold stock_invariant. repeat split; try (cbn; lia).
    eapply stock_invariant_append; eauto; cbn; lia.
Qed.

Lemma stock_invariant_run_init self self0 g0 :
  0 <= self_S self ->
  self_S self = S ->
  Forall Q (self_history self) ->
  run_init self = Returned (self0, g0) ->
  stock_invariant Q S self0.
Proof.
  intros HS0 HS HQ Hinit.
  apply run_init_fields in Hinit
    as (Hx & Hy & _ & _ & _ & _ & _ & Hcfg & Hh).
  injection Hcfg as _ Hs' HS' _ _ _ _ _ _ _ _.
  unfold stock_invariant. repeat split; try lia.
  eapply stock_invariant_append; eauto; cbn; lia.
Qed.

(** Every state of a run with [S >= 0] keeps the invariant. *)
Lemma stock_invariant_run self self0 g0 n :
  0 <= self_S self ->
  self_S self = S ->
  Forall Q (self_history self) ->
  run_init self = Returned (self0, g0) ->
  stock_invariant Q S (fst (state_after n self0 g0)).
Proof.
  intros HS0 HS HQ Hinit.
  pose proof (stock_invariant_run_init _ _ _ HS0 HS HQ Hinit) as Hi0.
  apply (state_after_invariant (stock_invariant Q S)); [|exact Hi0].
  intros s1 g1 s2 g2 ev Hi1 Hstep.
  eapply stock_invariant_step; eauto.
Qed.

End StockInvariant.

(** The log that [run] returns is the history after [fuel] turns. *)
Lemma run_log fuel self self' log summary :
  run fuel self = Returned (self', (log, summary)) ->
  exists self0 g0,
    run_init self = Returned (self0, g0) /\
    log = self_history (fst (state_after fuel self0 g0)) /\
    loop fuel self0 g0 = Returned (state_after fuel self0 g0).
Proof.
  unfold run.
  destruct (run_init self) as [[self0 g0]| |] eqn:Einit; try discriminate.
  destruct (loop fuel self0 g0) as [[selfL gL]| |] eqn:Eloop;
    try discriminate.
  intros H. exists self0, g0.
  pose proof (loop_state_after _ _ _ _ Eloop) as Hsa.
  rewrite <- Hsa. cbn in H. inversion H; subst. auto.
Qed.

(** *** Non-negative inventory *)

(** C4.  From a target level [S >= 0] (as with valid parameters,
    [S > s >= 0]), on-hand inventory [x] and
    in-transit quantity [y] are non-negative in every entry of the log:
    in the history after any number of turns of the loop, and so in the
    log that [run] returns.  In the customer-arrival handler the sale is
    [w = min(D, x)]: demand beyond the stock is lost ([lost = D - w]) and
    leaves [x] at zero, never below. *)
Theorem non_negative_inventory (self : InventorySimulation) :
  0 <= self_S self ->
  Forall entry_non_negative (self_history self) ->
  (forall self0 g0 n,
      run_init self = Returned (self0, g0) ->
      Forall entry_non_negative
             (self_history (fst (state_after n self0 g0)))) /\
  (forall fuel self' log summary,
      run fuel self = Returned (self', (log, summary)) ->
      Forall entry_non_negative log) /\
  (forall st g st' g' loc,
      0 <= self_x st ->
      customer_arrival st g = Returned (st', g', loc) ->
      0 <= self_x st' /\
      loc_lost loc = loc_D loc - loc_w loc /\
      0 <= loc_lost loc /\
      (self_x st < loc_D loc -> self_x st' = 0 /\ 0 < loc_lost loc)).
Proof.
  intros Hv Hh.
  assert (Hall : forall self0 g0 n,
             run_init self = Returned (self0, g0) ->
             Forall entry_non_negative
                    (self_history (fst (state_after n self0 g0)))).
  { intros self0 g0 n Hinit.
    eapply (stock_invariant_run entry_non_negative (self_S self));
      eauto. }
  split; [exact Hall|]. split.
  - intros fuel self' log summary Hrun.
    apply run_log in Hrun as (self0 & g0 & Hinit & -> & _).
    apply Hall; assumption.
  - intros st g st' g' loc Hx Hc.
    apply customer_arrival_fields in Hc
      as (HD & Hw & Hlost & _ & Hx' & _).
    lia.
Qed.

(** *** Nominal inventory *)

(** C10.  From a target level [S >= 0] (as with valid parameters,
    [S > s >= 0]), on-hand plus in-transit
    inventory is at most the target level, [x + y <= S], in every entry of
    the log: in the history after any number of turns of the loop, and so
    in the log that [run] returns. *)
Theorem nominal_inventory_at_most_target (self : InventorySimulation) :
  0 <= self_S self ->
  Forall (entry_within_target (self_S self)) (self_history self) ->
  (forall self0 g0 n,
      run_init self = Returned (self0, g0) ->
      Forall (entry_within_target (self_S self))
             (self_history (fst (state_after n self0 g0)))) /\
  (forall fuel self' log summary,
      run fuel self = Returned (self', (log, summary)) ->
      Forall (entry_within_target (self_S self)) log).
Proof.
  intros Hv Hh.
  assert (Hall : forall self0 g0 n,
             run_init self = Returned (self0, g0) ->
             Forall (entry_within_target (self_S self))
                    (self_history (fst (state_after n self0 g0)))).
  { intros self0 g0 n Hinit.
    eapply (stock_invariant_run (entry_within_target (self_S self))
                                (self_S self)); eauto. }
  split; [exact Hall|].
  intros fuel self' log summary Hrun.
  apply run_log in Hrun as (self0 & g0 & Hinit & -> & _).
  apply Hall; assumption.
Qed.

(** *** Placing an order *)

(** C3.  When the customer-arrival handler places an order (after the
    sale, [x < s] and no order in transit), it sets [y = S - x] and
    [t_O = t + L], so that on-hand plus in-transit inventory is exactly
    [S], in the state it leaves and in the entry it logs. *)
Theorem order_restores_target self g self' g' loc :
  customer_arrival self g = Returned (self', g', loc) ->
  loc_triggered_order loc = true ->
  (self_x self' < self_s self /\ self_y self = 0) /\
  self_y self' = self_S self - self_x self' /\
  self_t_O self' = (self_t self' + self_L self)%float /\
  self_x self' + self_y self' = self_S self /\
  (exists e, self_history self' = self_history self ++ [e] /\
             log_on_hand e + log_in_transit e = self_S self).
Proof.
  intros Hc Htrig.
  apply customer_arrival_fields in Hc
    as (_ & _ & _ & Hcond & Hx' & Hy' & _ & HtO & _ & _ & _ & _ & Hh).
  rewrite Htrig in *. symmetry in Hcond.
  apply andb_prop in Hcond as [E1 E2].
  apply Z.ltb_lt in E1. apply Z.eqb_eq in E2.
  repeat split; try lia; try assumption.
  eexists. split; [exact Hh|]. cbn. lia.
Qed.

(** *** Receiving an order *)

(** C6.  The order-arrival handler, with an order of [y > 0] units in
    transit, adds [K + c_unit * y] to the ordering cost [C] and [y] to
    the on-hand inventory [x], then resets [y] to [0] and [t_O] to
    infinity.  With [y = 10], [K = 100] and [c_unit = 20] the amount
    added to [C] is [300]. *)
Theorem order_arrival_accounting self :
  0 < self_y self ->
  let self' := order_arrival self in
  self_C self' =
    (self_C self
     + (self_K self + self_c_unit self * float_of_Z (self_y self)))%float /\
  self_x self' = self_x self + self_y self /\
  self_y self' = 0 /\
  self_t_O self' = infinity /\
  (self_y self = 10 -> self_K self = 100%float ->
   self_c_unit self = 20%float ->
   self_C self' = (self_C self + 300)%float /\
   self_x self' = self_x self + 10).
Proof.
  intros Hy self'.
  destruct (order_arrival_fields self)
    as (Hx' & Hy' & _ & HtO & _ & HC & _).
  fold self' in Hx', Hy', HtO, HC.
  assert (Hcost : _calculate_ordering_cost self (self_y self) =
                  (self_K self
                   + self_c_unit self * float_of_Z (self_y self))%float).
  { unfold _calculate_ordering_cost.
    destruct (self_y self <=? 0) eqn:E; [|reflexivity].
    apply Z.leb_le in E. lia. }
  rewrite Hcost in HC.
  split; [exact HC|]. split; [exact Hx'|].
  split; [exact Hy'|]. split; [exact HtO|].
  intros Hten HK Hc. split.
  - rewrite HC, Hten, HK, Hc. reflexivity.
  - lia.
Qed.

(** *** The summary *)

(** C1.  The summary that [run] returns has
    [final_profit = total_revenue - total_ordering_cost -
    total_holding_cost], where the revenue and the ordering cost are the
    accumulators [R] and [C] as the loop left them and the holding cost
    is the accumulator [H] after the accrual for the interval from the
    last event to [T]; these are the values left in the object. *)
Theorem profit_conservation fuel self self' log summary :
  run fuel self = Returned (self', (log, summary)) ->
  final_profit summary =
    (total_revenue summary - total_ordering_cost summary
     - total_holding_cost summary)%float /\
  (exists self0 g0 selfL gL,
      run_init self = Returned (self0, g0) /\
      loop fuel self0 g0 = Returned (selfL, gL) /\
      total_revenue summary = self_R selfL /\
      total_ordering_cost summary = self_C selfL /\
      total_holding_cost summary =
        (self_H selfL
         + self_h selfL * float_of_Z (self_x selfL)
           * (self_T selfL - self_t selfL))%float) /\
  total_revenue summary = self_R self' /\
  total_ordering_cost summary = self_C self' /\
  total_holding_cost summary = self_H self'.
Proof.
  unfold run.
  destruct (run_init self) as [[self0 g0]| |] eqn:Einit; try discriminate.
  destruct (loop fuel self0 g0) as [[selfL gL]| |] eqn:Eloop;
    try discriminate.
  intros H. inversion H; subst; clear H. cbn.
  repeat split.
  exists self0, g0, selfL, gL. repeat split. exact Eloop.
Qed.

(** *** One order at a time *)

Lemma events_one_order_at_a_time S n : forall self g,
  valid_levels self ->
  stock_invariant (fun _ => True) S self ->
  one_order_at_a_time (0 <? self_y self) (events n self g) = true.
Proof.
  induction n as [|n IH]; intros self g Hv Hinv; cbn; [reflexivity|].
  destruct (step self g) as [| |self' g' ev] eqn:Estep; try reflexivity.
  assert (Hv' : valid_levels self') by (eapply valid_levels_step; eauto).
  assert (Hinv' : stock_invariant (fun _ => True) S self')
    by exact (stock_invariant_step _ S (fun _ _ _ => I)
                                   _ _ _ _ _ Hinv Estep).
  specialize (IH self' g' Hv' Hinv').
  destruct Hv as [Hs HsS].
  destruct Hinv as (HS & Hx & Hy & Hxy & _).
  apply step_cases in Estep as [(loc & -> & _ & Hc) | (-> & _ & -> & ->)].
  - apply customer_arrival_fields in Hc
      as (_ & _ & _ & Htrig & Hx' & Hy' & _).
    cbn. destruct (loc_triggered_order loc) eqn:E.
    + symmetry in Htrig. apply andb_prop in Htrig as [E1 E2].
      apply Z.ltb_lt in E1. apply Z.eqb_eq in E2.
      assert (Hpos : (0 <? self_y self') = true) by (apply Z.ltb_lt; lia).
      rewrite Hpos in IH. rewrite E2, IH. reflexivity.
    + rewrite Hy' in IH. exact IH.
  - cbn in IH |- *. exact IH.
Qed.

Lemma one_order_at_a_time_suffix pre : forall b evs,
  one_order_at_a_time b (pre ++ evs) = true ->
  exists b', one_order_at_a_time b' evs = true.
Proof.
  induction pre as [|ev pre IH]; intros b evs H; cbn in H; [eauto|].
  destruct ev as [loc|q].
  - destruct (loc_triggered_order loc).
    + apply andb_prop in H as [_ H]. eauto.
    + eauto.
  - eauto.
Qed.

Lemma one_order_at_a_time_between mid : forall ev2 post,
  one_order_at_a_time true (mid ++ ev2 :: post) = true ->
  is_trigger ev2 = true ->
  exists q, In (OrderArrival q) mid.
Proof.
  induction mid as [|ev mid IH]; intros ev2 post H Hev2; cbn in H.
  - destruct ev2 as [loc|q]; cbn in Hev2; [|discriminate].
    rewrite Hev2 in H. discriminate.
  - destruct ev as [loc|q].
    + destruct (loc_triggered_order loc); [discriminate|].
      destruct (IH _ _ H Hev2) as [q Hq]. exists q. right. exact Hq.
    + exists q. left. reflexivity.
Qed.

(** C5.  From parameters with [S > s >= 0]: the customer-arrival handler
    places an order only in a state with [y == 0]; and among the events of
    the loop, any two events that place an order have an order arrival
    between them, so that between two consecutive order arrivals (and
    before the first one) at most one order is placed. *)
Theorem single_outstanding_order self self0 g0 n :
  valid_levels self ->
  run_init self = Returned (self0, g0) ->
  (forall st g st' g' loc,
      customer_arrival st g = Returned (st', g', loc) ->
      loc_triggered_order loc = true ->
      self_y st = 0) /\
  one_order_at_a_time false (events n self0 g0) = true /\
  (forall pre ev1 mid ev2 post,
      events n self0 g0 = pre ++ ev1 :: mid ++ ev2 :: post ->
      is_trigger ev1 = true -> is_trigger ev2 = true ->
      exists q, In (OrderArrival q) mid).
Proof.
  intros Hv Hinit.
  assert (Hcheck : one_order_at_a_time false (events n self0 g0) = true).
  { pose proof (valid_levels_run_init _ _ _ Hv Hinit) as Hv0.
    assert (Hi0 : stock_invariant (fun _ => True) (self_S self) self0).
    { apply (stock_invariant_run_init _ _ (fun _ _ _ => I) self self0 g0);
        [destruct Hv; lia | reflexivity | apply Forall_forall; auto
        | exact Hinit]. }
    pose proof (events_one_order_at_a_time _ n self0 g0 Hv0 Hi0) as H.
    apply run_init_fields in Hinit as (_ & Hy0 & _).
    rewrite Hy0 in H. exact H. }
  split; [|split; [exact Hcheck|]].
  - intros st g st' g' loc Hc Htrig.
    apply customer_arrival_fields in Hc as (_ & _ & _ & Hcond & _).
    rewrite Htrig in Hcond. symmetry in Hcond.
    apply andb_prop in Hcond as [_ E2]. apply Z.eqb_eq in E2. exact E2.
  - intros pre ev1 mid ev2 post Hev Ht1 Ht2.
    rewrite Hev in Hcheck.
    apply one_order_at_a_time_suffix in Hcheck as [b Hb].
    destruct ev1 as [loc|q]; cbn in Ht1; [|discriminate].
    cbn in Hb. rewrite Ht1 in Hb.
    apply andb_prop in Hb as [_ Hb].
    eapply one_order_at_a_time_between; eauto.
Qed.

(** *** Reorder point zero *)

Lemma never_ordered_step h0 self g self' g' ev :
  never_ordered h0 self ->
  step self g = Next self' g' ev ->
  never_ordered h0 self' /\ is_trigger ev = false.
Proof.
  intros (Hs & Hx & Hy & HtO & new & Hh & Hnew) Hstep.
  apply step_cases in Hstep as [(loc & -> & _ & Hc) | (-> & _ & -> & ->)].
  - apply customer_arrival_fields in Hc
      as (HD & Hw & _ & Htrig & Hx' & Hy' & _ & HtO' & _ & _ & _
          & Hcfg & Hh').
    injection Hcfg as _ Hs' _ _ _ _ _ _ _ _ _.
    assert (E : loc_triggered_order loc = false).
    { rewrite Htrig. apply andb_false_intro1. apply Z.ltb_ge. lia. }
    split; [|exact E]. rewrite E in *.
    unfold never_ordered. repeat split; try lia; try congruence.
    exists (new ++ [customer_entry self' loc]). split.
    + rewrite Hh', Hh, app_assoc. reflexivity.
    + apply Forall_app; split; [assumption|].
      constructor; [|constructor]. cbn. rewrite E. split; [lia|].
      destruct (0 <? loc_lost loc); discriminate.
  - split; [|reflexivity].
    destruct (order_arrival_fields self)
      as (Hx' & Hy' & _ & HtO' & _ & _ & _ & _ & Hh').
    unfold never_ordered. repeat split; try (cbn; lia); try assumption.
    eexists (new ++ [_]). split.
    + rewrite Hh', Hh, app_assoc. reflexivity.
    + apply Forall_app; split; [assumption|].
      constructor; [|constructor]. cbn. split; [reflexivity|discriminate].
Qed.

Lemma never_ordered_events h0 n : forall self g,
  never_ordered h0 self ->
  never_ordered h0 (fst (state_after n self g)) /\
  Forall (fun ev => is_trigger ev = false) (events n self g).
Proof.
  induction n as [|n IH]; intros self g Hinv; cbn; [auto|].
  destruct (step self g) as [| |self' g' ev] eqn:Estep; cbn; auto.
  destruct (never_ordered_step _ _ _ _ _ _ Hinv Estep) as [Hinv' Hev].
  destruct (IH self' g' Hinv') as [H1 H2]. auto.
Qed.

(** C7.  With reorder point [s = 0] (and [S > 0]) no turn of the loop
    places an order: no event of the run triggers one, [y] stays [0] and
    [t_O] stays infinite, and the entries that the run logs all have an
    in-transit quantity of [0] and never the label of an order; the
    caller's selection of placed orders finds none among them. *)
Theorem no_reorder_at_zero self self0 g0 n :
  self_s self = 0 -> 0 < self_S self ->
  run_init self = Returned (self0, g0) ->
  Forall (fun ev => is_trigger ev = false) (events n self0 g0) /\
  self_y (fst (state_after n self0 g0)) = 0 /\
  self_t_O (fst (state_after n self0 g0)) = infinity /\
  exists new,
    self_history (fst (state_after n self0 g0)) =
      self_history self ++ new /\
    Forall (fun e => log_in_transit e = 0 /\
                     log_event_type e <> PurchaseAndOrder) new /\
    orders_placed new = [].
Proof.
  intros Hs HS Hinit.
  apply run_init_fields in Hinit
    as (Hx & Hy & _ & HtO & _ & _ & _ & Hcfg & Hh).
  injection Hcfg as _ Hs' _ _ _ _ _ _ _ _ _.
  assert (Hinv : never_ordered (self_history self) self0).
  { unfold never_ordered. repeat split; try lia; try assumption.
    exists [initial_entry (self_S self)]. split; [exact Hh|].
    constructor; [|constructor]. cbn. split; [reflexivity|discriminate]. }
  destruct (never_ordered_events _ n self0 g0 Hinv)
    as [(_ & _ & Hy' & HtO' & new & Hh' & Hnew) Hev].
  repeat split; try assumption.
  exists new. repeat split; try assumption.
  clear - Hnew. induction Hnew as [|e l [_ He] _ IH]; cbn; [reflexivity|].
  unfold orders_placed in IH. rewrite IH.
  destruct (log_event_type e); try reflexivity. congruence.
Qed.

(** *** A second run on the same object *)

(** The loop never reads the history: on an object with more entries in
    front, it does the same and leaves them in front. *)
Lemma customer_arrival_rebase h d self g :
  customer_arrival (rebase h d self) g =
  match customer_arrival self g with
  | Returned (self', g', loc) => Returned (rebase h d self', g', loc)
  | ZeroDivisionError => ZeroDivisionError
  | OutOfFuel => OutOfFuel
  end.
Proof.
  unfold customer_arrival, _generate_demand_size, _generate_next_arrival.
  cbn.
  destruct (np_random_poisson _ g) as [d0 g1].
  destruct (np_random_uniform 0 1 g1) as [U g2].
  destruct ((self_x self - Z.min (Z.max 1 d0) (self_x self) <? self_s self)
            && (self_y self =? 0));
    destruct (PrimFloat.eqb (self_lam self) 0); try reflexivity;
    unfold rebase, update; cbn; rewrite app_assoc; reflexivity.
Qed.

Lemma step_rebase h d self g :
  step (rebase h d self) g =
  match step self g with
  | Break => Break
  | Raise => Raise
  | Next self' g' ev => Next (rebase h d self') g' ev
  end.
Proof.
  unfold step. rewrite customer_arrival_rebase. cbn.
  destruct (PrimFloat.ltb _ _); [reflexivity|].
  destruct (PrimFloat.leb _ _).
  - destruct (customer_arrival self g) as [[[s1 g1] loc]| |]; reflexivity.
  - unfold order_arrival, rebase, update; cbn.
    rewrite app_assoc. reflexivity.
Qed.

Lemma loop_rebase h d fuel : forall self g,
  loop fuel (rebase h d self) g =
  match loop fuel self g with
  | Returned (self', g') => Returned (rebase h d self', g')
  | ZeroDivisionError => ZeroDivisionError
  | OutOfFuel => OutOfFuel
  end.
Proof.
  induction fuel as [|n IH]; intros self g; cbn; [reflexivity|].
  rewrite step_rebase.
  destruct (step self g) as [| |self' g' ev]; try reflexivity.
  apply IH.
Qed.

Lemma config_state_after n : forall self g,
  config (fst (state_after n self g)) = config self.
Proof.
  intros self g.
  apply (state_after_invariant (fun s => config s = config self));
    [|reflexivity].
  intros s1 g1 s2 g2 ev H1 Hstep. rewrite <- H1.
  apply step_cases in Hstep as [(loc & -> & _ & Hc) | (-> & _ & -> & ->)].
  - apply customer_arrival_fields in Hc
      as (_ & _ & _ & _ & _ & _ & _ & _ & _ & _ & _ & Hcfg & _).
    exact Hcfg.
  - reflexivity.
Qed.

(** [run] up to the loop reads only the attributes copied from [params],
    and appends to whatever history it finds. *)
Lemma run_init_rebase a b :
  config b = config a ->
  self_history a = [] ->
  run_init b =
  match run_init a with
  | Returned (a0, g0) =>
      Returned (rebase (self_history b) (self_df_log b) a0, g0)
  | ZeroDivisionError => ZeroDivisionError
  | OutOfFuel => OutOfFuel
  end.
Proof.
  intros Hcfg Hh. destruct a, b. cbn in Hcfg, Hh.
  injection Hcfg as -> -> -> -> -> -> -> -> -> -> ->. subst.
  unfold run_init, _generate_next_arrival. cbn.
  destruct (np_random_uniform 0 1 _) as [U g1].
  destruct (PrimFloat.eqb _ 0); reflexivity.
Qed.

(** C2, on the code: two calls of [run] on the same object.  When the
    first call on a fresh object returns the log [log1] and the summary
    [summary1], the second call on the object it leaves returns the same
    summary, but its log is [log1] followed by [log1] once more, twice as
    long as the first and different from it: [run] resets every attribute
    of the state except [history]. *)
Theorem second_run_repeats_log params fuel self1 log1 summary1 :
  run fuel (__init__ params) = Returned (self1, (log1, summary1)) ->
  exists self2,
    run fuel self1 = Returned (self2, (log1 ++ log1, summary1)) /\
    length (log1 ++ log1) = (2 * length log1)%nat /\
    log1 ++ log1 <> log1.
Proof.
  intros Hrun.
  assert (Hne : log1 <> []).
  { apply run_log in Hrun as (self0 & g0 & Hinit & -> & _).
    pose proof (run_init_fields _ _ _ Hinit) as (_ & _ & _ & _ & _ & _ & _ & _ & Hh0).
    assert (Hpre : forall n s g,
               self_history s <> [] ->
               self_history (fst (state_after n s g)) <> []).
    { intros n s g Hs.
      apply (state_after_invariant (fun s => self_history s <> []));
        [|exact Hs].
      intros s1 g1 s2 g2 ev _ Hstep.
      apply step_cases in Hstep
        as [(loc & -> & _ & Hc) | (-> & _ & -> & ->)].
      - apply customer_arrival_fields in Hc
          as (_ & _ & _ & _ & _ & _ & _ & _ & _ & _ & _ & _ & Hh).
        rewrite Hh. intros E. apply app_eq_nil in E as [_ E]. discriminate.
      - cbn. intros E. apply app_eq_nil in E as [_ E]. discriminate. }
    apply Hpre. rewrite Hh0. discriminate. }
  unfold run in Hrun |- *.
  destruct (run_init (__init__ params)) as [[self0 g0]| |] eqn:Einit;
    try discriminate.
  destruct (loop fuel self0 g0) as [[selfL gL]| |] eqn:Eloop;
    try discriminate.
  unfold run_finish in Hrun.
  injection Hrun as Hself1 Hlog1 Hsum1.
  assert (Hcfg : config self1 = config (__init__ params)).
  { rewrite <- Hself1.
    pose proof (loop_state_after _ _ _ _ Eloop) as Hsa.
    pose proof (config_state_after fuel self0 g0) as Hc.
    rewrite <- Hsa in Hc. cbn in Hc.
    apply run_init_fields in Einit
      as (_ & _ & _ & _ & _ & _ & _ & Hc0 & _).
    rewrite <- Hc0, <- Hc. reflexivity. }
  rewrite (run_init_rebase (__init__ params) self1 Hcfg eq_refl), Einit.
  rewrite loop_rebase, Eloop.
  assert (Hh1 : self_history self1 = log1).
  { rewrite <- Hself1. cbn. exact Hlog1. }
  rewrite Hh1.
  eexists. split; [|split].
  - unfold run_finish. cbn. rewrite Hlog1, <- Hsum1. reflexivity.
  - rewrite length_app. lia.
  - intros E. apply Hne.
    apply (app_inv_head log1). rewrite app_nil_r. exact E.
Qed.

(** *** Order arrivals carry an order *)

(** Only a value that is not a number fails to be at most infinity. *)
Lemma leb_infinity_false (f : float) :
  PrimFloat.leb f infinity = false -> PrimFloat.eqb f f = false.
Proof.
  rewrite FloatAxioms.leb_spec, FloatAxioms.eqb_spec.
  change (Prim2SF infinity) with (S754_infinity false).
  destruct (Prim2SF f) as [ | [] | | ]; cbn; try discriminate; auto.
Qed.

Lemma pending_order_step S self g self' g' ev :
  valid_levels self ->
  stock_invariant (fun _ => True) S self ->
  (self_y self = 0 -> self_t_O self = infinity) ->
  step self g = Next self' g' ev ->
  self_y self' = 0 -> self_t_O self' = infinity.
Proof.
  intros [Hs HsS] (HS & Hx & Hy & Hxy & _) Hinf Hstep Hy0.
  apply step_cases in Hstep as [(loc & -> & _ & Hc) | (-> & _ & -> & ->)].
  - apply customer_arrival_fields in Hc
      as (_ & _ & _ & Htrig & Hx' & Hy' & _ & HtO & _).
    destruct (loc_triggered_order loc).
    + symmetry in Htrig. apply andb_prop in Htrig as [E1 _].
      apply Z.ltb_lt in E1. lia.
    + rewrite HtO. apply Hinf. lia.
  - reflexivity.
Qed.

(** In a run from valid levels whose arrival clock is a number, the loop
    turns to the order-arrival handler only with an order in transit, so
    that the guard [quantity <= 0] of [_calculate_ordering_cost] is never
    taken there. *)
Lemma order_arrival_only_with_order self self0 g0 n st g st' g' q :
  valid_levels self ->
  run_init self = Returned (self0, g0) ->
  (st, g) = state_after n self0 g0 ->
  step st g = Next st' g' (OrderArrival q) ->
  is_number (self_t_C st) ->
  q = self_y st /\ 0 < q.
Proof.
  intros Hv Hinit Hst Hstep Hnum.
  pose proof (valid_levels_run_init _ _ _ Hv Hinit) as Hv0.
  assert (Hi0 : stock_invariant (fun _ => True) (self_S self) self0).
  { apply (stock_invariant_run_init _ _ (fun _ _ _ => I) self self0 g0);
      [destruct Hv; lia | reflexivity | apply Forall_forall; auto
      | exact Hinit]. }
  assert (Hall : valid_levels st /\
                 stock_invariant (fun _ => True) (self_S self) st /\
                 (self_y st = 0 -> self_t_O st = infinity)).
  { replace st with (fst (state_after n self0 g0))
      by (rewrite <- Hst; reflexivity).
    apply (state_after_invariant
             (fun s => valid_levels s /\
                       stock_invariant (fun _ => True) (self_S self) s /\
                       (self_y s = 0 -> self_t_O s = infinity))).
    - intros s1 g1 s2 g2 ev (H1 & H2 & H3) Hs. split; [|split].
      + eapply valid_levels_step; eauto.
      + exact (stock_invariant_step _ _ (fun _ _ _ => I)
                 _ _ _ _ _ H2 Hs).
      + eapply pending_order_step; eauto.
    - split; [exact Hv0|]. split; [exact Hi0|].
      apply run_init_fields in Hinit as (_ & _ & _ & HtO & _). auto. }
  destruct Hall as (_ & (_ & _ & Hy & _) & Hinf).
  apply step_cases in Hstep as [(loc & E & _) | (E & Hleb & _)];
    [discriminate|].
  injection E as ->. split; [reflexivity|].
  destruct (Z.eq_dec (self_y st) 0) as [Hy0|Hy0]; [|lia].
  rewrite (Hinf Hy0) in Hleb. apply leb_infinity_false in Hleb.
  unfold is_number in Hnum. congruence.
Qed.

(** *** The label of a customer arrival *)

(** C8, as the code has it.  The entry that the customer-arrival handler
    appends carries one label.  After a stockout ([lost > 0]) the label is
    the stockout label and the remark holds demand, sale and loss, whether
    or not the same event placed an order; the label of a purchase with an
    order is written only when nothing was lost.  An order placed in the
    event shows in the entry through its in-transit quantity, [S - x]. *)
Theorem customer_entry_label self g self' g' loc :
  customer_arrival self g = Returned (self', g', loc) ->
  exists e,
    self_history self' = self_history self ++ [e] /\
    0 <= loc_lost loc /\
    (0 < loc_lost loc ->
     log_event_type e = StockoutLoss /\
     log_remark e =
       Some (mkRemark (loc_D loc) (loc_w loc) (loc_lost loc))) /\
    (loc_lost loc = 0 ->
     log_remark e = None /\
     log_event_type e =
       if loc_triggered_order loc then PurchaseAndOrder
       else CustomerPurchase) /\
    (log_event_type e = PurchaseAndOrder <->
     loc_lost loc = 0 /\ loc_triggered_order loc = true) /\
    (loc_triggered_order loc = true ->
     log_in_transit e = self_S self - log_on_hand e).
Proof.
  intros Hc.
  apply customer_arrival_fields in Hc
    as (HD & Hw & Hlost & _ & _ & Hy' & _ & _ & _ & _ & _ & _ & Hh).
  exists (customer_entry self' loc). split; [exact Hh|].
  split; [lia|]. cbn.
  destruct (0 <? loc_lost loc) eqn:E;
    [apply Z.ltb_lt in E | apply Z.ltb_ge in E].
  - split; [intros _; split; reflexivity|].
    split; [intros H0; lia|].
    split; [split; [discriminate | intros [H0 _]; lia]|].
    intros Ht. rewrite Hy', Ht. reflexivity.
  - split; [intros H0; lia|].
    split.
    { intros _. split; [reflexivity|].
      destruct (loc_triggered_order loc); reflexivity. }
    split.
    + destruct (loc_triggered_order loc); cbn; split.
      * intros _. split; [lia|reflexivity].
      * reflexivity.
      * discriminate.
      * intros [_ H1]. discriminate.
    + intros Ht. rewrite Hy', Ht. reflexivity.
Qed.

(** *** A uniform draw of zero *)

(** C9, as the code has it.  [_generate_next_arrival] takes one draw [U]
    and uses it as drawn: the generator moves on by exactly that draw and
    the interarrival time is [-(1/lam) * log U], with no test on [U].
    When this makes the first arrival time infinite (a draw of [0]) and
    the horizon [T] is finite, nothing is raised: the loop breaks at once
    and [run] returns the one-entry log with the holding cost of the full
    stock over [[0, T]]. *)
Theorem degenerate_draw_ends_arrivals self self0 g0 :
  run_init self = Returned (self0, g0) ->
  self_t_C self0 = infinity ->
  PrimFloat.ltb (self_T self) infinity = true ->
  let g := np_random_seed (p_seed (self_params self)) in
  let U := fst (np_random_uniform 0 1 g) in
  (forall st g1 inter_arrival g2,
      _generate_next_arrival st g1 = Returned (inter_arrival, g2) ->
      g2 = snd (np_random_uniform 0 1 g1) /\
      inter_arrival =
        (- (1 / self_lam st)
         * np_log (fst (np_random_uniform 0 1 g1)))%float) /\
  g0 = snd (np_random_uniform 0 1 g) /\
  self_t_C self0 = (- (1 / self_lam self) * np_log U)%float /\
  forall fuel,
  exists self' summary,
    run (S fuel) self =
      Returned (self',
                (self_history self ++ [initial_entry (self_S self)],
                 summary)) /\
    total_revenue summary = 0%float /\
    total_ordering_cost summary = 0%float /\
    total_holding_cost summary =
      (0 + self_h self * float_of_Z (self_S self)
           * (self_T self - 0))%float.
Proof.
  intros Hinit HtC HT g U.
  split.
  { intros st g1 ia g2. unfold _generate_next_arrival.
    destruct (np_random_uniform 0 1 g1) as [U1 g1'].
    destruct (PrimFloat.eqb (self_lam st) 0); [discriminate|].
    intros H. inversion H; subst; cbn. auto. }
  assert (Hdraw : g0 = snd (np_random_uniform 0 1 g) /\
                  self_t_C self0 = (- (1 / self_lam self) * np_log U)%float).
  { revert Hinit. unfold run_init, _generate_next_arrival. cbn.
    fold g. subst U. destruct (np_random_uniform 0 1 g) as [U1 g1].
    destruct (PrimFloat.eqb (self_lam self) 0); [discriminate|].
    intros H. inversion H; subst; cbn. auto. }
  destruct Hdraw as [Hg HU]. split; [exact Hg|]. split; [exact HU|].
  intros fuel.
  pose proof (run_init_fields _ _ _ Hinit)
    as (Hx & Hy & Ht & HtO & HC & HH & HR & Hcfg & Hh).
  injection Hcfg as _ _ HS HT' _ _ _ _ _ _ Hh'.
  assert (Hstep : step self0 g0 = Break).
  { unfold step, py_min. rewrite HtC, HtO, HT'.
    change (PrimFloat.ltb infinity infinity) with false. cbn iota.
    rewrite HT. reflexivity. }
  unfold run. rewrite Hinit. cbn [loop]. rewrite Hstep.
  unfold run_finish. cbn.
  eexists. eexists. split.
  - rewrite Hh. reflexivity.
  - cbn. rewrite HR, HC, HH, Hh', Hx, HT', Ht. auto.
Qed.

End Properties.

(** ** The properties on the concrete runs *)

(** The summary of the scripted run: a profit of [550 - 500 - 11.38...]. *)
Lemma profit_conservation_witness :
  @run demo_numpy 20 demo_self = Returned demo_outcome /\
  final_profit (snd (snd demo_outcome)) =
    (total_revenue (snd (snd demo_outcome))
     - total_ordering_cost (snd (snd demo_outcome))
     - total_holding_cost (snd (snd demo_outcome)))%float /\
  total_revenue (snd (snd demo_outcome)) = 550%float /\
  total_ordering_cost (snd (snd demo_outcome)) = 500%float.
Proof.
  assert (Hrun : @run demo_numpy 20 demo_self = Returned demo_outcome)
    by (vm_compute; reflexivity).
  split; [exact Hrun|].
  split; [|split; reflexivity].
  exact (proj1 (@profit_conservation demo_numpy 20 demo_self
                  (fst demo_outcome) (fst (snd demo_outcome))
                  (snd (snd demo_outcome)) Hrun)).
Defined.

(** A second run on the object that the scripted run leaves: the log of
    nine entries comes back with eighteen. *)
Lemma second_run_repeats_log_witness :
  @run demo_numpy 20 (__init__ demo_params) = Returned demo_outcome /\
  length (fst (snd demo_outcome)) = 9%nat /\
  exists self2,
    @run demo_numpy 20 (fst demo_outcome) =
      Returned (self2,
                (fst (snd demo_outcome) ++ fst (snd demo_outcome),
                 snd (snd demo_outcome))) /\
    length (fst (snd demo_outcome) ++ fst (snd demo_outcome)) =
      (2 * length (fst (snd demo_outcome)))%nat /\
    fst (snd demo_outcome) ++ fst (snd demo_outcome)
      <> fst (snd demo_outcome).
Proof.
  assert (Hrun : @run demo_numpy 20 (__init__ demo_params)
                 = Returned demo_outcome) by (vm_compute; reflexivity).
  split; [exact Hrun|]. split; [reflexivity|].
  exact (@second_run_repeats_log demo_numpy demo_params 20
           (fst demo_outcome) (fst (snd demo_outcome))
           (snd (snd demo_outcome)) Hrun).
Defined.

(** The first arrival of the scripted run places an order of [3] on a stock
    of [1]: four units in all. *)
Lemma order_restores_target_witness :
  @customer_arrival demo_numpy (fst demo_start) (snd demo_start)
    = Returned demo_first_arrival /\
  loc_triggered_order (snd demo_first_arrival) = true /\
  self_x (fst (fst demo_first_arrival)) = 1 /\
  self_y (fst (fst demo_first_arrival)) = 3 /\
  self_x (fst (fst demo_first_arrival))
    + self_y (fst (fst demo_first_arrival)) = self_S (fst demo_start).
Proof.
  assert (Hc : @customer_arrival demo_numpy (fst demo_start) (snd demo_start)
               = Returned demo_first_arrival) by (vm_compute; reflexivity).
  assert (Ht : loc_triggered_order (snd demo_first_arrival) = true)
    by reflexivity.
  split; [exact Hc|]. split; [exact Ht|].
  split; [reflexivity|]. split; [reflexivity|].
  exact (proj1 (proj2 (proj2 (proj2
           (@order_restores_target demo_numpy (fst demo_start)
              (snd demo_start) (fst (fst demo_first_arrival))
              (snd (fst demo_first_arrival)) (snd demo_first_arrival)
              Hc Ht))))).
Defined.

(** The log of the scripted run has no negative level. *)
Lemma non_negative_inventory_witness :
  0 <= self_S demo_self /\
  Forall entry_non_negative (self_history demo_self) /\
  @run demo_numpy 20 demo_self = Returned demo_outcome /\
  Forall entry_non_negative (fst (snd demo_outcome)).
Proof.
  assert (Hv : 0 <= self_S demo_self) by (cbn; lia).
  assert (Hh : Forall entry_non_negative (self_history demo_self))
    by constructor.
  assert (Hrun : @run demo_numpy 20 demo_self = Returned demo_outcome)
    by (vm_compute; reflexivity).
  repeat (split; [assumption|]).
  exact (proj1 (proj2 (@non_negative_inventory demo_numpy demo_self Hv Hh))
           20%nat (fst demo_outcome) (fst (snd demo_outcome))
           (snd (snd demo_outcome)) Hrun).
Defined.

(** The log of the scripted run stays within the target level [4]. *)
Lemma nominal_inventory_at_most_target_witness :
  0 <= self_S demo_self /\
  Forall (entry_within_target 4) (self_history demo_self) /\
  @run demo_numpy 20 demo_self = Returned demo_outcome /\
  Forall (entry_within_target 4) (fst (snd demo_outcome)).
Proof.
  assert (Hv : 0 <= self_S demo_self) by (cbn; lia).
  assert (Hh : Forall (entry_within_target (self_S demo_self))
                      (self_history demo_self)) by constructor.
  assert (Hrun : @run demo_numpy 20 demo_self = Returned demo_outcome)
    by (vm_compute; reflexivity).
  split; [exact Hv|]. split; [exact Hh|]. split; [exact Hrun|].
  exact (proj2 (@nominal_inventory_at_most_target demo_numpy demo_self Hv Hh)
           20%nat (fst demo_outcome) (fst (snd demo_outcome))
           (snd (snd demo_outcome)) Hrun).
Defined.

(** The events of the scripted run: three orders placed, each followed by
    its arrival before the next. *)
Lemma single_outstanding_order_witness :
  valid_levels demo_self /\
  @run_init demo_numpy demo_self = Returned demo_start /\
  length (filter is_trigger
            (@events demo_numpy 20 (fst demo_start) (snd demo_start)))
    = 3%nat /\
  one_order_at_a_time false
    (@events demo_numpy 20 (fst demo_start) (snd demo_start)) = true.
Proof.
  assert (Hv : valid_levels demo_self) by (unfold valid_levels; cbn; lia).
  assert (Hinit : @run_init demo_numpy demo_self = Returned demo_start)
    by (vm_compute; reflexivity).
  split; [exact Hv|]. split; [exact Hinit|]. split; [reflexivity|].
  exact (proj1 (proj2 (@single_outstanding_order demo_numpy demo_self
                         (fst demo_start) (snd demo_start) 20%nat
                         Hv Hinit))).
Defined.

(** The delivery of [10] units with [K = 100] and [c = 20]. *)
Lemma order_arrival_accounting_witness :
  0 < self_y delivery_state /\
  self_C (order_arrival delivery_state) = 300%float /\
  self_C (order_arrival delivery_state)
    = (self_C delivery_state + 300)%float /\
  self_x (order_arrival delivery_state) = self_x delivery_state + 10.
Proof.
  assert (Hy : 0 < self_y delivery_state) by reflexivity.
  split; [exact Hy|]. split; [reflexivity|].
  exact (proj2 (proj2 (proj2 (proj2
           (order_arrival_accounting delivery_state Hy))))
           eq_refl eq_refl eq_refl).
Defined.

(** Reorder point zero: the stock runs out at the second arrival and no
    order is ever placed. *)
Lemma no_reorder_at_zero_witness :
  self_s (__init__ zero_params) = 0 /\
  0 < self_S (__init__ zero_params) /\
  @run_init zero_numpy (__init__ zero_params) = Returned zero_start /\
  length (@events zero_numpy 20 (fst zero_start) (snd zero_start)) = 3%nat /\
  self_x (fst (@state_after zero_numpy 20 (fst zero_start) (snd zero_start)))
    = 0 /\
  Forall (fun ev => is_trigger ev = false)
         (@events zero_numpy 20 (fst zero_start) (snd zero_start)).
Proof.
  assert (Hinit : @run_init zero_numpy (__init__ zero_params)
                  = Returned zero_start) by (vm_compute; reflexivity).
  split; [reflexivity|]. split; [reflexivity|]. split; [exact Hinit|].
  split; [reflexivity|]. split; [reflexivity|].
  exact (proj1 (@no_reorder_at_zero zero_numpy (__init__ zero_params)
                  (fst zero_start) (snd zero_start) 20%nat
                  eq_refl eq_refl Hinit)).
Defined.

(** The first arrival of the scripted run, without a stockout: the entry
    has the label of a purchase with an order and an in-transit quantity
    of [S - x = 3]. *)
Lemma customer_entry_label_witness :
  @customer_arrival demo_numpy (fst demo_start) (snd demo_start)
    = Returned demo_first_arrival /\
  exists e,
    self_history (fst (fst demo_first_arrival))
      = self_history (fst demo_start) ++ [e] /\
    (log_event_type e = PurchaseAndOrder <->
     loc_lost (snd demo_first_arrival) = 0 /\
     loc_triggered_order (snd demo_first_arrival) = true).
Proof.
  assert (Hc : @customer_arrival demo_numpy (fst demo_start) (snd demo_start)
               = Returned demo_first_arrival) by (vm_compute; reflexivity).
  split; [exact Hc|].
  destruct (@customer_entry_label demo_numpy (fst demo_start)
              (snd demo_start) (fst (fst demo_first_arrival))
              (snd (fst demo_first_arrival)) (snd demo_first_arrival) Hc)
    as (e & Hh & _ & _ & _ & Hlabel & _).
  exists e. split; [exact Hh | exact Hlabel].
Defined.

(** C8 fails on the code.  A demand of [5] on a stock of [4] with no order
    in transit loses one unit and places an order of [4]; the entry
    appended has the stockout label and a remark on demand, sale and loss,
    and the caller's selection of placed orders does not find it.  In the
    scripted run the loop places three orders and the log shows two. *)
Lemma stockout_label_hides_order :
  (exists self' g' e,
      @customer_arrival demo_numpy stockout_state stockout_script
        = Returned (self', g', mkLocals 5 4 1 true) /\
      self_y self' = 4 /\
      self_history self' = [e] /\
      log_event_type e = StockoutLoss /\
      log_event_type e <> PurchaseAndOrder /\
      log_remark e = Some (mkRemark 5 4 1) /\
      orders_placed (self_history self') = []) /\
  @run demo_numpy 20 demo_self = Returned demo_outcome /\
  length (filter is_trigger
            (@events demo_numpy 20 (fst demo_start) (snd demo_start)))
    = 3%nat /\
  length (orders_placed (fst (snd demo_outcome))) = 2%nat.
Proof.
  split.
  - eexists. eexists. eexists.
    split; [vm_compute; reflexivity|].
    repeat split; try reflexivity. discriminate.
  - split; [vm_compute; reflexivity|]. split; reflexivity.
Qed.

(** A first draw of exactly [0] under a horizon of [5]: the run returns the
    initialization entry alone and a holding cost of [1 * 4 * 5]. *)
Lemma degenerate_draw_ends_arrivals_witness :
  @run_init degenerate_numpy demo_self = Returned degenerate_start /\
  self_t_C (fst degenerate_start) = infinity /\
  PrimFloat.ltb (self_T demo_self) infinity = true /\
  exists self' summary,
    @run degenerate_numpy 1 demo_self =
      Returned (self', ([initial_entry 4], summary)) /\
    total_holding_cost summary = 20%float.
Proof.
  assert (Hinit : @run_init degenerate_numpy demo_self
                  = Returned degenerate_start) by (vm_compute; reflexivity).
  split; [exact Hinit|]. split; [reflexivity|]. split; [reflexivity|].
  destruct (proj2 (proj2 (proj2
              (@degenerate_draw_ends_arrivals degenerate_numpy
                 demo_self (fst degenerate_start)
                 (snd degenerate_start) Hinit eq_refl eq_refl)))
              0%nat)
    as (self' & summary & Hrun & _ & _ & HH).
  exists self', summary. split; [exact Hrun | exact HH].
Defined.

(** C9 fails on the code.  On a generator whose next uniform draw is
    exactly [0], [_generate_next_arrival] uses that draw: the value drawn is
    not above [0], the interarrival time returned is infinite, and the
    generator has moved by one draw only, its next draw [0.5] untouched. *)
Lemma zero_draw_is_not_redrawn :
  @np_random_uniform degenerate_numpy 0 1 degenerate_script
    = (0%float, Scripted.mkScript [0.5%float] []) /\
  PrimFloat.ltb 0 (fst (@np_random_uniform degenerate_numpy 0 1
                          degenerate_script)) = false /\
  @np_log degenerate_numpy 0 = neg_infinity /\
  @_generate_next_arrival degenerate_numpy demo_self degenerate_script
    = Returned (infinity, Scripted.mkScript [0.5%float] []).
Proof.
  repeat split; vm_compute; reflexivity.
Qed.

(** ** Further properties of the engine *)

Section LogProperties.

Context {np : NumPy}.

(** Every turn of the loop appends one entry, which shows the event and the
    state the turn leaves. *)
Lemma step_entry self g self' g' ev :
  step self g = Next self' g' ev ->
  exists e,
    self_history self' = self_history self ++ [e] /\
    log_event_type e = event_label ev /\
    log_delta e = event_delta ev /\
    log_time e = self_t self' /\
    log_on_hand e = self_x self' /\
    log_in_transit e = self_y self' /\
    log_profit e = (self_R self' - self_C self' - self_H self')%float /\
    self_x self' = self_x self + event_delta ev.
Proof.
  intros Hstep.
  apply step_cases in Hstep as [(loc & -> & _ & Hc) | (-> & _ & -> & ->)].
  - apply customer_arrival_fields in Hc
      as (_ & _ & _ & _ & Hx' & _ & _ & _ & _ & _ & _ & _ & Hh).
    exists (customer_entry self' loc). cbn.
    repeat split; try assumption; lia.
  - eexists. split; [reflexivity|]. cbn. repeat split.
Qed.

Lemma history_follows_events n : forall self g,
  exists new,
    self_history (fst (state_after n self g)) = self_history self ++ new /\
    map log_event_type new = map event_label (events n self g) /\
    map log_delta new = map event_delta (events n self g) /\
    self_x (fst (state_after n self g)) = self_x self + total_delta new.
Proof.
  induction n as [|n IH]; intros self g; cbn.
  - exists []. rewrite app_nil_r. cbn. repeat split. lia.
  - destruct (step self g) as [| |self' g' ev] eqn:Estep.
    + exists []. rewrite app_nil_r. cbn. repeat split. lia.
    + exists []. rewrite app_nil_r. cbn. repeat split. lia.
    + destruct (step_entry _ _ _ _ _ Estep)
        as (e & Hh & Hlabel & Hdelta & _ & _ & _ & _ & Hx).
      destruct (IH self' g') as (new & Hh' & Hl' & Hd' & Hx').
      exists (e :: new). cbn.
      split; [rewrite Hh', Hh, <- app_assoc; reflexivity|].
      split; [rewrite Hl', Hlabel; reflexivity|].
      split; [rewrite Hd', Hdelta; reflexivity|].
      unfold total_delta in *. cbn. rewrite Hx', Hx, Hdelta. lia.
Qed.

(** X1.  The log follows the events.  After any number of turns of the loop
    the history is what it was before the run, then the initialization
    entry, then one entry per event in order, each with the label and the
    inventory change of its event; so the log that [run] returns on a fresh
    object has one row more than the loop had turns. *)
Theorem log_follows_events self self0 g0 n :
  run_init self = Returned (self0, g0) ->
  exists new,
    self_history (fst (state_after n self0 g0)) =
      self_history self ++ initial_entry (self_S self) :: new /\
    map log_event_type new = map event_label (events n self0 g0) /\
    map log_delta new = map event_delta (events n self0 g0) /\
    length new = length (events n self0 g0) /\
    (forall self' log summary,
        self_history self = [] ->
        run n self = Returned (self', (log, summary)) ->
        log = initial_entry (self_S self) :: new /\
        length log = Datatypes.S (length (events n self0 g0))).
Proof.
  intros Hinit.
  destruct (history_follows_events n self0 g0) as (new & Hh & Hl & Hd & _).
  pose proof (run_init_fields _ _ _ Hinit)
    as (_ & _ & _ & _ & _ & _ & _ & _ & Hh0).
  exists new.
  assert (Hlen : length new = length (events n self0 g0)).
  { rewrite <- (length_map log_event_type new), Hl, length_map.
    reflexivity. }
  split; [rewrite Hh, Hh0, <- app_assoc; reflexivity|].
  split; [exact Hl|]. split; [exact Hd|]. split; [exact Hlen|].
  intros self' log summary Hfresh Hrun.
  apply run_log in Hrun as (s1 & g1 & Hinit' & -> & _).
  rewrite Hinit in Hinit'. injection Hinit' as <- <-.
  rewrite Hh, Hh0, Hfresh. cbn. rewrite Hlen. split; reflexivity.
Qed.

(** X2.  The column of inventory changes accounts for the stock.  After any
    number of turns of the loop, the on-hand inventory is the target level
    [S] plus the sum of the changes logged since the initialization
    entry. *)
Theorem inventory_from_deltas self self0 g0 n :
  run_init self = Returned (self0, g0) ->
  exists new,
    self_history (fst (state_after n self0 g0)) =
      self_history self ++ initial_entry (self_S self) :: new /\
    self_x (fst (state_after n self0 g0)) = self_S self + total_delta new /\
    total_delta (initial_entry (self_S self) :: new) = total_delta new.
Proof.
  intros Hinit.
  destruct (history_follows_events n self0 g0) as (new & Hh & _ & _ & Hx).
  apply run_init_fields in Hinit
    as (Hx0 & _ & _ & _ & _ & _ & _ & _ & Hh0).
  exists new. split; [rewrite Hh, Hh0, <- app_assoc; reflexivity|].
  split; [lia | reflexivity].
Qed.

(** X3.  The last row of the log is the state.  After any number of turns
    of the loop the last entry of the history carries the time, the on-hand
    and in-transit quantities of the object and its running profit
    [R - C - H]. *)
Theorem last_entry_is_state self self0 g0 n :
  run_init self = Returned (self0, g0) ->
  last_entry_shows_state (fst (state_after n self0 g0)).
Proof.
  intros Hinit.
  apply state_after_invariant.
  - intros s1 g1 s2 g2 ev _ Hstep.
    destruct (step_entry _ _ _ _ _ Hstep)
      as (e & Hh & _ & _ & Ht & Hx & Hy & Hp & _).
    exists (self_history s1), e. auto.
  - apply run_init_fields in Hinit
      as (Hx & Hy & Ht & _ & HC & HH & HR & _ & Hh).
    exists (self_history self), (initial_entry (self_S self)).
    rewrite Hh, Hx, Hy, Ht, HC, HH, HR. cbn. repeat split.
Qed.

(** A property of the entries holds of the whole history when each turn of
    the loop, from a state within an invariant [I], appends an entry that
    has it. *)
Lemma history_invariant (I : InventorySimulation -> Prop)
    (Q : LogEntry -> Prop) :
  (forall st g st' g' ev,
      I st -> step st g = Next st' g' ev ->
      I st' /\ exists e, self_history st' = self_history st ++ [e] /\ Q e) ->
  forall n st g,
    I st -> Forall Q (self_history st) ->
    Forall Q (self_history (fst (state_after n st g))).
Proof.
  intros Hstep n st g HI HQ.
  apply (state_after_invariant
           (fun s => I s /\ Forall Q (self_history s))); [|auto].
  intros s1 g1 s2 g2 ev [HI1 HQ1] Hs.
  destruct (Hstep _ _ _ _ _ HI1 Hs) as (HI2 & e & Hh & He).
  split; [exact HI2|]. rewrite Hh.
  apply Forall_app; split; [exact HQ1|]. constructor; [exact He|constructor].
Qed.

Lemma customer_entry_consistent_step st g st' g' ev :
  step st g = Next st' g' ev ->
  exists e, self_history st' = self_history st ++ [e] /\
            customer_entry_consistent e.
Proof.
  intros Hstep.
  apply step_cases in Hstep as [(loc & -> & _ & Hc) | (-> & _ & -> & ->)].
  - apply customer_arrival_fields in Hc
      as (HD & Hw & Hlost & _ & Hx' & _ & _ & _ & _ & _ & _ & _ & Hh).
    exists (customer_entry st' loc). split; [exact Hh|].
    unfold customer_entry_consistent. cbn.
    destruct (0 <? loc_lost loc) eqn:E;
      [apply Z.ltb_lt in E | apply Z.ltb_ge in E].
    + split; [lia|].
      exists (loc_D loc), (loc_w loc), (loc_lost loc).
      repeat split; lia.
    + destruct (loc_triggered_order loc); cbn; split; try reflexivity; lia.
  - eexists. split; [reflexivity|]. reflexivity.
Qed.

(** X4.  Stockouts and purchases in the log.  In every entry that a run
    logs, the stockout label goes with an on-hand inventory of [0] and with
    the remark on a demand of at least [1], the quantity sold (the change
    logged, negated) and a positive loss that is their difference; the two
    purchase labels go with no remark and a sale of at least one unit. *)
Theorem customer_entries_consistent self self0 g0 n :
  Forall customer_entry_consistent (self_history self) ->
  run_init self = Returned (self0, g0) ->
  Forall customer_entry_consistent
         (self_history (fst (state_after n self0 g0))) /\
  (forall self' log summary,
      run n self = Returned (self', (log, summary)) ->
      Forall customer_entry_consistent log).
Proof.
  intros Hh Hinit.
  assert (Hall : Forall customer_entry_consistent
                        (self_history (fst (state_after n self0 g0)))).
  { apply (history_invariant (fun _ => True)); auto.
    - intros st g st' g' ev _ Hstep. split; [exact I|].
      eapply customer_entry_consistent_step; eauto.
    - apply run_init_fields in Hinit
        as (_ & _ & _ & _ & _ & _ & _ & _ & Hh0).
      rewrite Hh0. apply Forall_app; split; [exact Hh|].
      constructor; [reflexivity|constructor]. }
  split; [exact Hall|].
  intros self' log summary Hrun.
  apply run_log in Hrun as (s1 & g1 & Hinit' & -> & _).
  rewrite Hinit in Hinit'. injection Hinit' as <- <-. exact Hall.
Qed.

Lemma order_entry_consistent_step s S st g st' g' ev :
  self_s st = s ->
  valid_levels st ->
  stock_invariant (fun _ => True) S st ->
  step st g = Next st' g' ev ->
  exists e, self_history st' = self_history st ++ [e] /\
            order_entry_consistent s S e.
Proof.
  intros Hs [Hs0 HsS] (HS & Hx & Hy & Hxy & _) Hstep.
  apply step_cases in Hstep as [(loc & -> & _ & Hc) | (-> & _ & -> & ->)].
  - apply customer_arrival_fields in Hc
      as (HD & Hw & Hlost & Htrig & Hx' & Hy' & _ & _ & _ & _ & _ & _ & Hh).
    exists (customer_entry st' loc). split; [exact Hh|].
    unfold order_entry_consistent. cbn.
    destruct (0 <? loc_lost loc); [exact I|].
    rewrite Hy', Hx'.
    destruct (loc_triggered_order loc); cbn; symmetry in Htrig.
    + apply andb_prop in Htrig as [E1 E2].
      apply Z.ltb_lt in E1. lia.
    + apply andb_false_iff in Htrig as [E|E];
        [apply Z.ltb_ge in E | apply Z.eqb_neq in E]; lia.
  - eexists. split; [reflexivity|].
    unfold order_entry_consistent. cbn. lia.
Qed.

(** X5.  Orders in the log.  From parameters with [S > s >= 0], every entry
    that a run logs with the label of a purchase with an order has an
    on-hand inventory below [s] and a positive in-transit quantity that
    fills it up to [S]; a plain purchase with nothing in transit leaves at
    least [s] on hand; a delivery leaves nothing in transit and brought a
    non-negative quantity, at most what is then on hand. *)
Theorem order_entries_consistent self self0 g0 n :
  valid_levels self ->
  Forall (order_entry_consistent (self_s self) (self_S self))
         (self_history self) ->
  run_init self = Returned (self0, g0) ->
  Forall (order_entry_consistent (self_s self) (self_S self))
         (self_history (fst (state_after n self0 g0))) /\
  (forall self' log summary,
      run n self = Returned (self', (log, summary)) ->
      Forall (order_entry_consistent (self_s self) (self_S self)) log).
Proof.
  intros Hv Hh Hinit.
  assert (Hall : Forall (order_entry_consistent (self_s self) (self_S self))
                        (self_history (fst (state_after n self0 g0)))).
  { pose proof (valid_levels_run_init _ _ _ Hv Hinit) as Hv0.
    assert (Hi0 : stock_invariant (fun _ => True) (self_S self) self0).
    { apply (stock_invariant_run_init _ _ (fun _ _ _ => I) self self0 g0);
        [destruct Hv; lia | reflexivity | apply Forall_forall; auto
        | exact Hinit]. }
    pose proof (run_init_fields _ _ _ Hinit)
      as (_ & _ & _ & _ & _ & _ & _ & Hcfg & Hh0).
    injection Hcfg as _ Hs0 _ _ _ _ _ _ _ _ _.
    apply (history_invariant
             (fun st => self_s st = self_s self /\ valid_levels st /\
                        stock_invariant (fun _ => True) (self_S self) st)).
    - intros st g st' g' ev (Hs & Hvs & His) Hstep. split.
      + split; [|split].
        * apply step_cases in Hstep
            as [(loc & -> & _ & Hc) | (-> & _ & -> & ->)];
            [|exact Hs].
          apply customer_arrival_fields in Hc
            as (_ & _ & _ & _ & _ & _ & _ & _ & _ & _ & _ & Hcfg & _).
          injection Hcfg as _ Hs' _ _ _ _ _ _ _ _ _. congruence.
        * eapply valid_levels_step; eauto.
        * exact (stock_invariant_step _ _ (fun _ _ _ => I)
                   _ _ _ _ _ His Hstep).
      + eapply order_entry_consistent_step; eauto.
    - auto.
    - rewrite Hh0. apply Forall_app; split; [exact Hh|].
      constructor; [exact I|constructor]. }
  split; [exact Hall|].
  intros self' log summary Hrun.
  apply run_log in Hrun as (s1 & g1 & Hinit' & -> & _).
  rewrite Hinit in Hinit'. injection Hinit' as <- <-. exact Hall.
Qed.

End LogProperties.

(** ** Errors, parameters and costs *)

Section RunProperties.

Context {np : NumPy}.





(** X7.  What [run] leaves in the object.  A call that returns has not
    changed any attribute copied from [params]; the log it returns is the
    history of the object and its [df_log], and it starts with the history
    that the object had before the call. *)
Theorem run_keeps_parameters fuel self self' log summary :
  run fuel self = Returned (self', (log, summary)) ->
  config self' = config self /\
  self_history self' = log /\
  self_df_log self' = Some log /\
  (exists new, log = self_history self ++ new).
Proof.
  intros Hrun.
  pose proof (run_log _ _ _ _ _ Hrun) as (self0 & g0 & Hinit & Hlog & Hloop).
  unfold run in Hrun. rewrite Hinit, Hloop in Hrun.
  destruct (state_after fuel self0 g0) as [selfL gL] eqn:Esa.
  unfold run_finish in Hrun. injection Hrun as Hself' Hlog' _.
  pose proof (config_state_after fuel self0 g0) as Hcfg.
  rewrite Esa in Hcfg. cbn in Hcfg.
  pose proof (run_init_fields _ _ _ Hinit)
    as (_ & _ & _ & _ & _ & _ & _ & Hcfg0 & Hh0).
  destruct (history_follows_events fuel self0 g0) as (new & Hh & _).
  rewrite Esa in Hh. cbn in Hh.
  subst self'. cbn. rewrite <- Hlog'.
  repeat split.
  - rewrite <- Hcfg0, <- Hcfg. reflexivity.
  - exists (initial_entry (self_S self) :: new).
    rewrite Hh, Hh0, <- app_assoc. reflexivity.
Qed.

(** The invariant of a run with [s = 0], with the ordering cost. *)
Lemma no_ordering_cost_step self g self' g' ev :
  self_s self = 0 -> 0 <= self_x self -> self_y self = 0 ->
  self_C self = 0%float ->
  step self g = Next self' g' ev ->
  self_s self' = 0 /\ 0 <= self_x self' /\ self_y self' = 0 /\
  self_C self' = 0%float.
Proof.
  intros Hs Hx Hy HC Hstep.
  apply step_cases in Hstep as [(loc & -> & _ & Hc) | (-> & _ & -> & ->)].
  - apply customer_arrival_fields in Hc
      as (HD & Hw & _ & Htrig & Hx' & Hy' & _ & _ & HC' & _ & _ & Hcfg & _).
    injection Hcfg as _ Hs' _ _ _ _ _ _ _ _ _.
    assert (E : loc_triggered_order loc = false).
    { rewrite Htrig. apply andb_false_intro1. apply Z.ltb_ge. lia. }
    rewrite E in Hy'. repeat split; try lia; congruence.
  - cbn. unfold _calculate_ordering_cost. rewrite Hy, HC. cbn.
    repeat split; try lia; try assumption.
Qed.

(** X8.  Reorder point zero costs no order.  With [s = 0] and [S > 0], a
    run that returns reports a total ordering cost of [0] and a final
    profit of the revenue less [0] and the holding cost. *)
Theorem zero_reorder_point_no_ordering_cost fuel self self' log summary :
  self_s self = 0 -> 0 < self_S self ->
  run fuel self = Returned (self', (log, summary)) ->
  total_ordering_cost summary = 0%float /\
  final_profit summary =
    (total_revenue summary - 0 - total_holding_cost summary)%float.
Proof.
  intros Hs HS Hrun.
  pose proof (run_log _ _ _ _ _ Hrun) as (self0 & g0 & Hinit & _ & Hloop).
  unfold run in Hrun. rewrite Hinit, Hloop in Hrun.
  pose proof (run_init_fields _ _ _ Hinit)
    as (Hx0 & Hy0 & _ & _ & HC0 & _ & _ & Hcfg & _).
  injection Hcfg as _ Hs0 _ _ _ _ _ _ _ _ _.
  assert (Hinv : self_s (fst (state_after fuel self0 g0)) = 0 /\
                 0 <= self_x (fst (state_after fuel self0 g0)) /\
                 self_y (fst (state_after fuel self0 g0)) = 0 /\
                 self_C (fst (state_after fuel self0 g0)) = 0%float).
  { apply (state_after_invariant
             (fun st => self_s st = 0 /\ 0 <= self_x st /\
                        self_y st = 0 /\ self_C st = 0%float)).
    - intros s1 g1 s2 g2 ev (H1 & H2 & H3 & H4) Hstep.
      eapply no_ordering_cost_step; eauto.
    - repeat split; try lia; congruence. }
  destruct (state_after fuel self0 g0) as [selfL gL].
  cbn in Hinv. destruct Hinv as (_ & _ & _ & HC).
  unfold run_finish in Hrun. injection Hrun as _ _ Hsum.
  subst summary. cbn. rewrite HC. split; reflexivity.
Qed.

Lemma orders_and_deliveries S n : forall self g,
  valid_levels self ->
  stock_invariant (fun _ => True) S self ->
  (length (filter is_trigger (events n self g))
   + (if (0 <? self_y self)%Z then 1 else 0)
   = length (filter is_delivery (events n self g))
     + (if (0 <? self_y (fst (state_after n self g)))%Z then 1 else 0))%nat.
Proof.
  induction n as [|n IH]; intros self g Hv Hinv; cbn; [reflexivity|].
  destruct (step self g) as [| |self' g' ev] eqn:Estep; try reflexivity.
  assert (Hv' : valid_levels self') by (eapply valid_levels_step; eauto).
  assert (Hinv' : stock_invariant (fun _ => True) S self')
    by exact (stock_invariant_step _ S (fun _ _ _ => I)
                _ _ _ _ _ Hinv Estep).
  specialize (IH self' g' Hv' Hinv').
  destruct Hv as [Hs HsS].
  destruct Hinv as (HS & Hx & Hy & Hxy & _).
  apply step_cases in Estep as [(loc & -> & _ & Hc) | (-> & _ & -> & ->)].
  - apply customer_arrival_fields in Hc
      as (_ & _ & _ & Htrig & Hx' & Hy' & _).
    cbn. destruct (loc_triggered_order loc) eqn:E.
    + symmetry in Htrig. apply andb_prop in Htrig as [E1 E2].
      apply Z.ltb_lt in E1. apply Z.eqb_eq in E2.
      assert (Hpos : (0 <? self_y self') = true) by (apply Z.ltb_lt; lia).
      rewrite Hpos in IH. rewrite E2. cbn. lia.
    + rewrite Hy' in IH. exact IH.
  - cbn in IH |- *. destruct (0 <? self_y self); cbn; lia.
Qed.

(** X9.  Every order is delivered once or is on its way.  From parameters
    with [S > s >= 0], after any number of turns of the loop the number of
    orders placed is the number of order arrivals that brought a positive
    quantity, plus one when an order is in transit ([y > 0]). *)
Theorem orders_delivered_or_in_transit self self0 g0 n :
  valid_levels self ->
  run_init self = Returned (self0, g0) ->
  length (filter is_trigger (events n self0 g0)) =
    (length (filter is_delivery (events n self0 g0))
     + (if (0 <? self_y (fst (state_after n self0 g0)))%Z then 1 else 0))%nat.
Proof.
  intros Hv Hinit.
  pose proof (valid_levels_run_init _ _ _ Hv Hinit) as Hv0.
  assert (Hi0 : stock_invariant (fun _ => True) (self_S self) self0).
  { apply (stock_invariant_run_init _ _ (fun _ _ _ => I) self self0 g0);
      [destruct Hv; lia | reflexivity | apply Forall_forall; auto
      | exact Hinit]. }
  pose proof (orders_and_deliveries _ n self0 g0 Hv0 Hi0) as H.
  apply run_init_fields in Hinit as (_ & Hy0 & _).
  rewrite Hy0 in H. cbn in H. lia.
Qed.

End RunProperties.

(** ** The horizon, the sweeps and the search *)

(** Case analysis on the comparisons of exponents and mantissas in the
    specification of the float comparisons. *)
Ltac order_cases :=
  repeat match goal with
  | |- context [Z.compare ?a ?b] => destruct (Z.compare_spec a b); subst
  | |- context [Pos.compare_cont Eq ?a ?b] =>
      change (Pos.compare_cont Eq a b) with (Pos.compare a b);
      destruct (Pos.compare_spec a b); subst
  end.

Lemma SFltb_irrefl x : SFltb x x = false.
Proof.
  unfold SFltb, SFcompare.
  destruct x as [s|s| |s m e]; try destruct s; try reflexivity;
    rewrite Z.compare_refl;
    change (Pos.compare_cont Eq m m) with (Pos.compare m m);
    rewrite Pos.compare_refl; reflexivity.
Qed.

Lemma SFltb_trans x y z :
  SFltb x y = true -> SFltb y z = true -> SFltb x z = true.
Proof.
  unfold SFltb, SFcompare.
  destruct x as [sx|sx| |sx mx ex], y as [sy|sy| |sy my ey],
           z as [sz|sz| |sz mz ez];
    try destruct sx; try destruct sy; try destruct sz;
    cbn; try discriminate; try reflexivity;
    order_cases; cbn; intros; try discriminate; try reflexivity; lia.
Qed.

Lemma SFleb_ltb x y : SFleb x y = true -> SFltb y x = false.
Proof.
  unfold SFleb, SFltb, SFcompare.
  destruct x as [sx|sx| |sx mx ex], y as [sy|sy| |sy my ey];
    try destruct sx; try destruct sy;
    cbn; try discriminate; try reflexivity;
    order_cases; cbn; intros; try discriminate; try reflexivity; lia.
Qed.

Lemma float_ltb_irrefl (x : float) : PrimFloat.ltb x x = false.
Proof. rewrite FloatAxioms.ltb_spec. apply SFltb_irrefl. Qed.

Lemma float_ltb_trans (x y z : float) :
  PrimFloat.ltb x y = true -> PrimFloat.ltb y z = true ->
  PrimFloat.ltb x z = true.
Proof. rewrite !FloatAxioms.ltb_spec. apply SFltb_trans. Qed.

Lemma float_leb_ltb (x y : float) :
  PrimFloat.leb x y = true -> PrimFloat.ltb y x = false.
Proof.
  rewrite FloatAxioms.leb_spec, FloatAxioms.ltb_spec. apply SFleb_ltb.
Qed.

(** [range] with a positive step: its members lie from [start] up to, not
    including, [stop], at multiples of [step] from [start]. *)
Lemma py_range_In start stop step v :
  0 < step ->
  In v (py_range start stop step) ->
  start <= v < stop /\ (v - start) mod step = 0.
Proof.
  intros Hstep Hin. unfold py_range in Hin.
  apply in_map_iff in Hin as (i & <- & Hi).
  apply in_seq in Hi as [_ Hi]. cbn in Hi.
  assert (Hq : Z.of_nat i < (stop - start + step - 1) / step) by lia.
  pose proof (Z.mul_div_le (stop - start + step - 1) step Hstep) as Hle.
  split; [nia|].
  replace (start + step * Z.of_nat i - start) with (Z.of_nat i * step)
    by lia.
  apply Z_mod_mult.
Qed.

Lemma py_range_length start stop :
  length (py_range start stop 1) = Z.to_nat (stop - start).
Proof.
  unfold py_range. rewrite length_map, length_seq.
  replace (stop - start + 1 - 1) with (stop - start) by lia.
  rewrite Z.div_1_r. reflexivity.
Qed.

Section CallerProperties.

Context {np : NumPy}.

Lemma step_within_horizon self g self' g' ev :
  step self g = Next self' g' ev ->
  PrimFloat.ltb (self_T self) (py_min (self_t_C self) (self_t_O self))
    = false.
Proof.
  unfold step.
  destruct (PrimFloat.ltb _ _); [discriminate|reflexivity].
Qed.

Lemma loop_leaves_beyond_horizon fuel : forall self g self' g',
  loop fuel self g = Returned (self', g') ->
  PrimFloat.ltb (self_T self') (py_min (self_t_C self') (self_t_O self'))
    = true.
Proof.
  induction fuel as [|n IH]; intros self g self' g'; cbn; [discriminate|].
  destruct (step self g) as [| |s1 g1 ev] eqn:Estep; try discriminate.
  - intros H. injection H as <- <-. revert Estep. unfold step.
    destruct (PrimFloat.ltb _ _); [reflexivity|].
    destruct (PrimFloat.leb _ _); [|discriminate].
    destruct (customer_arrival self g) as [[[s2 g2] loc]| |]; discriminate.
  - apply IH.
Qed.

(** X10.  The horizon.  No customer arrival is processed after the horizon:
    every entry that a run logs with a customer label has a time that is
    not greater than [T].  And the loop leaves only when the earlier of the
    two pending events lies beyond [T]. *)
Theorem customer_arrivals_within_horizon self self0 g0 n :
  Forall (fun e => is_customer_label (log_event_type e) = true ->
                   PrimFloat.ltb (self_T self) (log_time e) = false)
         (self_history self) ->
  run_init self = Returned (self0, g0) ->
  Forall (fun e => is_customer_label (log_event_type e) = true ->
                   PrimFloat.ltb (self_T self) (log_time e) = false)
         (self_history (fst (state_after n self0 g0))) /\
  (forall selfL gL,
      loop n self0 g0 = Returned (selfL, gL) ->
      PrimFloat.ltb (self_T self) (py_min (self_t_C selfL) (self_t_O selfL))
        = true).
Proof.
  intros Hh Hinit.
  pose proof (run_init_fields _ _ _ Hinit)
    as (_ & _ & _ & _ & _ & _ & _ & Hcfg & Hh0).
  injection Hcfg as _ _ _ HT _ _ _ _ _ _ _.
  split.
  - apply (history_invariant (fun st => self_T st = self_T self)).
    + intros st g st' g' ev HTst Hstep.
      pose proof (step_within_horizon _ _ _ _ _ Hstep) as Hwithin.
      apply step_cases in Hstep
        as [(loc & -> & Hleb & Hc) | (-> & _ & -> & ->)].
      * apply customer_arrival_fields in Hc
          as (_ & _ & _ & _ & _ & _ & Ht & _ & _ & _ & _ & Hcfg & Hhst).
        injection Hcfg as _ _ _ HT' _ _ _ _ _ _ _.
        split; [congruence|].
        exists (customer_entry st' loc). split; [exact Hhst|].
        intros _. cbn. rewrite Ht, <- HTst.
        unfold py_min in Hwithin.
        rewrite (float_leb_ltb _ _ Hleb) in Hwithin. exact Hwithin.
      * split; [exact HTst|].
        eexists. split; [reflexivity|]. cbn. discriminate.
    + exact HT.
    + rewrite Hh0. apply Forall_app; split; [exact Hh|].
      constructor; [cbn; discriminate|constructor].
  - intros selfL gL Hloop.
    pose proof (loop_leaves_beyond_horizon _ _ _ _ _ Hloop) as Hleave.
    pose proof (loop_state_after _ _ _ _ Hloop) as Hsa.
    pose proof (config_state_after n self0 g0) as Hc.
    rewrite <- Hsa in Hc. cbn in Hc.
    injection Hc as _ _ _ HTL _ _ _ _ _ _ _.
    rewrite <- HT, <- HTL. exact Hleave.
Qed.

(** *** The sweeps *)

Lemma sweep_results fuel assign : forall range_values results0 x_vals0
                                         results x_vals,
  sweep fuel assign range_values results0 x_vals0
    = Returned (results, x_vals) ->
  x_vals = x_vals0 ++ range_values /\
  exists profits,
    results = results0 ++ profits /\
    Forall2 (profit_of_run fuel assign) range_values profits.
Proof.
  induction range_values as [|val vals IH];
    intros results0 x_vals0 results x_vals; cbn.
  - intros H. injection H as <- <-. rewrite !app_nil_r.
    split; [reflexivity|]. exists []. rewrite app_nil_r.
    split; [reflexivity|constructor].
  - destruct (run fuel (__init__ (assign val)))
      as [[self' [log res]]| |] eqn:Erun; try discriminate.
    intros H. apply IH in H as (Hx & profits & Hr & Hall).
    split; [rewrite Hx, <- app_assoc; reflexivity|].
    exists (final_profit res :: profits).
    split; [rewrite Hr, <- app_assoc; reflexivity|].
    constructor; [|exact Hall].
    exists self', log, res. auto.
Qed.

(** X11.  The sweeps over [s] and over [S].  A sweep that returns has one
    profit per grid value, in grid order, each from a run on a fresh object
    with that value assigned.  The sweep over [s] has the [S] values
    [0 .. S-1] and the sweep over [S] the fifty values [s+1 .. s+50]; with
    [s >= 0], every run of either sweep is on parameters with
    [S > s >= 0]. *)
Theorem sweeps_over_valid_levels fuel sim_params :
  0 <= p_s sim_params ->
  (forall results x_vals,
      sensitivity_s fuel sim_params = Returned (results, x_vals) ->
      x_vals = py_range 0 (p_S sim_params) 1 /\
      length x_vals = Z.to_nat (p_S sim_params) /\
      Forall2 (profit_of_run fuel (set_s sim_params)) x_vals results /\
      Forall (fun val => valid_levels (__init__ (set_s sim_params val)))
             x_vals) /\
  (forall results x_vals,
      sensitivity_S fuel sim_params = Returned (results, x_vals) ->
      x_vals = py_range (p_s sim_params + 1) (p_s sim_params + 51) 1 /\
      length x_vals = 50%nat /\
      Forall2 (profit_of_run fuel (set_S sim_params)) x_vals results /\
      Forall (fun val => valid_levels (__init__ (set_S sim_params val)))
             x_vals).
Proof.
  intros Hs. split.
  - intros results x_vals Hsweep. unfold sensitivity_s in Hsweep.
    apply sweep_results in Hsweep as (Hx & profits & Hr & Hall).
    cbn in Hx, Hr. subst x_vals results.
    split; [reflexivity|]. split; [rewrite py_range_length; f_equal; lia|].
    split; [exact Hall|].
    apply Forall_forall. intros val Hin.
    apply py_range_In in Hin as [Hin _]; [|lia].
    unfold valid_levels. cbn. lia.
  - intros results x_vals Hsweep. unfold sensitivity_S in Hsweep.
    apply sweep_results in Hsweep as (Hx & profits & Hr & Hall).
    cbn in Hx, Hr. subst x_vals results.
    split; [reflexivity|].
    split; [rewrite py_range_length;
            replace (p_s sim_params + 51 - (p_s sim_params + 1)) with 50
              by lia; reflexivity|].
    split; [exact Hall|].
    apply Forall_forall. intros val Hin.
    apply py_range_In in Hin as [Hin _]; [|lia].
    unfold valid_levels. cbn. lia.
Qed.

(** *** The search over the grid *)

Lemma optimize_S_invariant fuel sim_params s_max_search S_max_search s_val :
  forall S_range heatmap_data best_profit best_config acc,
    search_invariant fuel sim_params s_max_search S_max_search
                     (heatmap_data, best_profit, best_config) ->
    Forall (fun S_val =>
              row_in_grid s_max_search S_max_search (mkRow s_val S_val 0))
           S_range ->
    optimize_S fuel sim_params s_val S_range heatmap_data
               best_profit best_config = Returned acc ->
    search_invariant fuel sim_params s_max_search S_max_search acc /\
    map (fun row => (row_s row, row_S row)) (fst (fst acc)) =
      map (fun row => (row_s row, row_S row)) heatmap_data
      ++ map (pair s_val) S_range.
Proof.
  induction S_range as [|S_val S_range IH];
    intros heatmap_data best_profit best_config acc Hinv Hgrid; cbn.
  - intros H. injection H as <-. cbn. rewrite app_nil_r. auto.
  - destruct (run fuel (__init__ (set_S (set_s sim_params s_val) S_val)))
      as [[self' [log res]]| |] eqn:Erun; try discriminate.
    inversion Hgrid as [|? ? Hrow Hgrid']; subst.
    destruct Hinv as (Hin & Hrun & Hbest & Hcfg).
    set (row := mkRow s_val S_val (final_profit res)).
    assert (Hin' : Forall (row_in_grid s_max_search S_max_search)
                          (heatmap_data ++ [row])).
    { apply Forall_app; split; [exact Hin|].
      constructor; [exact Hrow|constructor]. }
    assert (Hrun' : Forall (row_of_run fuel sim_params)
                           (heatmap_data ++ [row])).
    { apply Forall_app; split; [exact Hrun|].
      constructor; [|constructor]. exists self', log, res. auto. }
    destruct (PrimFloat.ltb best_profit (final_profit res)) eqn:Elt;
      intros Hopt.
    + apply IH in Hopt; [| |exact Hgrid'].
      * destruct Hopt as [Hinv' Hp]. split; [exact Hinv'|].
        rewrite Hp, map_app, <- app_assoc. reflexivity.
      * split; [exact Hin'|]. split; [exact Hrun'|]. split.
        -- apply Forall_app; split.
           ++ apply Forall_forall. intros r Hr.
              pose proof (proj1 (Forall_forall _ _) Hbest r Hr) as Hle.
              cbn in Hle.
              destruct (PrimFloat.ltb (final_profit res) (row_Profit r))
                eqn:E; [|reflexivity].
              rewrite (float_ltb_trans _ _ _ Elt E) in Hle. discriminate.
           ++ constructor; [apply float_ltb_irrefl|constructor].
        -- right. exists row.
           split; [apply in_or_app; right; left; reflexivity|]. auto.
    + apply IH in Hopt; [| |exact Hgrid'].
      * destruct Hopt as [Hinv' Hp]. split; [exact Hinv'|].
        rewrite Hp, map_app, <- app_assoc. reflexivity.
      * split; [exact Hin'|]. split; [exact Hrun'|]. split.
        -- apply Forall_app; split; [exact Hbest|].
           constructor; [exact Elt|constructor].
        -- destruct Hcfg as [Hnone|(r & Hr & Hp & Hc)];
             [left; exact Hnone|].
           right. exists r.
           split; [apply in_or_app; left; exact Hr|]. auto.
Qed.

Lemma optimize_s_invariant fuel sim_params s_max_search S_max_search :
  forall s_range heatmap_data best_profit best_config acc,
    search_invariant fuel sim_params s_max_search S_max_search
                     (heatmap_data, best_profit, best_config) ->
    Forall (fun s_val => 0 <= s_val <= s_max_search /\ s_val mod 2 = 0)
           s_range ->
    optimize_s fuel sim_params S_max_search s_range heatmap_data
               best_profit best_config = Returned acc ->
    search_invariant fuel sim_params s_max_search S_max_search acc /\
    map (fun row => (row_s row, row_S row)) (fst (fst acc)) =
      map (fun row => (row_s row, row_S row)) heatmap_data
      ++ flat_map (fun s_val =>
                     map (pair s_val)
                         (py_range (s_val + 5) (S_max_search + 1) 5))
                  s_range.
Proof.
  induction s_range as [|s_val s_range IH];
    intros heatmap_data best_profit best_config acc Hinv Hgrid; cbn.
  - intros H. injection H as <-. cbn. rewrite app_nil_r. auto.
  - destruct (optimize_S fuel sim_params s_val
                (py_range (s_val + 5) (S_max_search + 1) 5)
                heatmap_data best_profit best_config)
      as [[[h1 bp1] bc1]| |] eqn:Einner; try discriminate.
    inversion Hgrid as [|? ? [Hs Heven] Hgrid']; subst.
    apply optimize_S_invariant
      with (s_max_search := s_max_search) (S_max_search := S_max_search)
      in Einner as [Hinv1 Hp1]; [|exact Hinv|].
    + intros Hopt. apply IH in Hopt as [Hinv' Hp]; [|exact Hinv1|exact Hgrid'].
      split; [exact Hinv'|].
      rewrite Hp. cbn in Hp1. rewrite Hp1, <- app_assoc. reflexivity.
    + apply Forall_forall. intros S_val HS.
      apply py_range_In in HS as [HS Hmod]; [|lia].
      unfold row_in_grid. cbn.
      replace (S_val - s_val) with (S_val - (s_val + 5) + 1 * 5) by lia.
      rewrite Z_mod_plus_full. repeat split; try lia; assumption.
Qed.

Lemma optimize_invariant fuel sim_params s_max_search S_max_search acc :
  optimize fuel sim_params s_max_search S_max_search = Returned acc ->
  search_invariant fuel sim_params s_max_search S_max_search acc /\
  map (fun row => (row_s row, row_S row)) (fst (fst acc)) =
    flat_map (fun s_val =>
                map (pair s_val)
                    (py_range (s_val + 5) (S_max_search + 1) 5))
             (py_range 0 (s_max_search + 1) 2).
Proof.
  unfold optimize. intros Hopt.
  apply optimize_s_invariant with (s_max_search := s_max_search) in Hopt.
  - exact Hopt.
  - cbn. split; [constructor|]. split; [constructor|].
    split; [constructor|]. left. split; reflexivity.
  - apply Forall_forall. intros s_val Hs.
    apply py_range_In in Hs as [Hs Hmod]; [|lia].
    rewrite Z.sub_0_r in Hmod. split; [lia|exact Hmod].
Qed.

(** X12.  The grid of the search.  A search that returns has run the engine
    once for every pair of the grid, in order: [s] from [0] to
    [s_max_search] in steps of [2] and, for each, [S] from [s + 5] to
    [S_max_search] in steps of [5].  Every row of the heat map is the final
    profit of the run with its pair, and every such run is on parameters
    with [S > s >= 0]. *)
Theorem search_covers_grid fuel sim_params s_max_search S_max_search
    heatmap_data best_profit best_config :
  optimize fuel sim_params s_max_search S_max_search
    = Returned (heatmap_data, best_profit, best_config) ->
  map (fun row => (row_s row, row_S row)) heatmap_data =
    flat_map (fun s_val =>
                map (pair s_val)
                    (py_range (s_val + 5) (S_max_search + 1) 5))
             (py_range 0 (s_max_search + 1) 2) /\
  Forall (row_in_grid s_max_search S_max_search) heatmap_data /\
  Forall (row_of_run fuel sim_params) heatmap_data /\
  Forall (fun row =>
            valid_levels
              (__init__ (set_S (set_s sim_params (row_s row)) (row_S row))))
         heatmap_data.
Proof.
  intros Hopt.
  apply optimize_invariant in Hopt as [(Hin & Hrun & _ & _) Hp].
  split; [exact Hp|]. split; [exact Hin|]. split; [exact Hrun|].
  apply Forall_forall. intros row Hrow.
  pose proof (proj1 (Forall_forall _ _) Hin row Hrow)
    as (Hs & HS & _ & _).
  unfold valid_levels. cbn. lia.
Qed.

(** X13.  The best configuration.  When the search returns, no row of the
    heat map has a profit greater than [best_profit]; and either some row
    has exactly that profit and [best_config] is its pair [(s, S)], or no
    profit was greater than minus infinity (as when the grid is empty) and
    the search answers minus infinity with the pair [(0, 0)]. *)
Theorem search_returns_best fuel sim_params s_max_search S_max_search
    heatmap_data best_profit best_config :
  optimize fuel sim_params s_max_search S_max_search
    = Returned (heatmap_data, best_profit, best_config) ->
  Forall (fun row => PrimFloat.ltb best_profit (row_Profit row) = false)
         heatmap_data /\
  ((best_profit = neg_infinity /\ best_config = (0, 0)) \/
   (exists row, In row heatmap_data /\
                row_Profit row = best_profit /\
                best_config = (row_s row, row_S row))).
Proof.
  intros Hopt.
  apply optimize_invariant in Hopt as [(_ & _ & Hbest & Hcfg) _].
  split; [exact Hbest | exact Hcfg].
Qed.

(** *** Reuse of an object, and an empty horizon *)

(** X14.  A run depends on the parameters only.  For two objects with the
    same attributes copied from [params], the first with an empty history
    and the second in any state: when [run] returns on the first, it
    returns on the second with the same summary, and with the same log
    behind the entries that the second object had before. *)
Theorem run_ignores_earlier_state fuel a b a' log summary :
  config b = config a ->
  self_history a = [] ->
  run fuel a = Returned (a', (log, summary)) ->
  exists b',
    run fuel b = Returned (b', (self_history b ++ log, summary)).
Proof.
  intros Hcfg Hfresh Hrun.
  unfold run in Hrun |- *.
  rewrite (run_init_rebase a b Hcfg Hfresh).
  destruct (run_init a) as [[a0 g0]| |] eqn:Einit; try discriminate.
  rewrite loop_rebase.
  destruct (loop fuel a0 g0) as [[aL gL]| |] eqn:Eloop; try discriminate.
  unfold run_finish in Hrun. injection Hrun as _ Hlog Hsum.
  eexists. unfold run_finish. cbn. rewrite Hlog, <- Hsum. reflexivity.
Qed.

Lemma float_ltb_infinity (x : float) : PrimFloat.ltb infinity x = false.
Proof.
  rewrite FloatAxioms.ltb_spec.
  change (Prim2SF infinity) with (S754_infinity false).
  destruct (Prim2SF x) as [ | [] | | ]; reflexivity.
Qed.

(** X15.  No arrival within the horizon.  When the first customer arrival
    is drawn beyond the horizon [T], the loop does nothing: [run] returns
    the history with the initialization entry alone added, no revenue, no
    ordering cost, and the holding cost of the full stock [S] from [0] to
    [T]. *)
Theorem first_arrival_beyond_horizon fuel self self0 g0 :
  run_init self = Returned (self0, g0) ->
  PrimFloat.ltb (self_T self) (self_t_C self0) = true ->
  exists self' summary,
    run (Datatypes.S fuel) self =
      Returned (self',
                (self_history self ++ [initial_entry (self_S self)],
                 summary)) /\
    total_revenue summary = 0%float /\
    total_ordering_cost summary = 0%float /\
    total_holding_cost summary =
      (0 + self_h self * float_of_Z (self_S self)
           * (self_T self - 0))%float.
Proof.
  intros Hinit Hbeyond.
  pose proof (run_init_fields _ _ _ Hinit)
    as (Hx & Hy & Ht & HtO & HC & HH & HR & Hcfg & Hh).
  injection Hcfg as _ _ HS HT' _ _ _ _ _ _ Hh'.
  assert (Hstep : step self0 g0 = Break).
  { unfold step, py_min. rewrite HtO, HT', float_ltb_infinity, Hbeyond.
    reflexivity. }
  unfold run. rewrite Hinit. cbn [loop]. rewrite Hstep.
  unfold run_finish. cbn.
  eexists. eexists. split.
  - rewrite Hh. reflexivity.
  - cbn. rewrite HR, HC, HH, Hh', Hx, HT', Ht. auto.
Qed.

End CallerProperties.

(** ** The further properties on the concrete runs *)

(** The scripted run: eight events, nine rows. *)
Lemma log_follows_events_witness :
  @run_init demo_numpy demo_self = Returned demo_start /\
  length (@events demo_numpy 20 (fst demo_start) (snd demo_start)) = 8%nat /\
  exists new,
    self_history (fst (@state_after demo_numpy 20 (fst demo_start)
                         (snd demo_start)))
      = self_history demo_self ++ initial_entry 4 :: new /\
    map log_event_type new =
      map event_label (@events demo_numpy 20 (fst demo_start)
                         (snd demo_start)) /\
    length new = 8%nat.
Proof.
  assert (Hinit : @run_init demo_numpy demo_self = Returned demo_start)
    by (vm_compute; reflexivity).
  split; [exact Hinit|]. split; [reflexivity|].
  destruct (@log_follows_events demo_numpy demo_self (fst demo_start)
              (snd demo_start) 20%nat Hinit)
    as (new & Hh & Hl & _ & Hlen & _).
  exists new. split; [exact Hh|]. split; [exact Hl | exact Hlen].
Defined.

(** The scripted run ends with three units on hand: four, less the ten sold,
    plus the ten delivered. *)
Lemma inventory_from_deltas_witness :
  @run_init demo_numpy demo_self = Returned demo_start /\
  self_x (fst (@state_after demo_numpy 20 (fst demo_start)
                 (snd demo_start))) = 3 /\
  exists new,
    self_history (fst (@state_after demo_numpy 20 (fst demo_start)
                         (snd demo_start)))
      = self_history demo_self ++ initial_entry 4 :: new /\
    self_x (fst (@state_after demo_numpy 20 (fst demo_start)
                   (snd demo_start))) = 4 + total_delta new.
Proof.
  assert (Hinit : @run_init demo_numpy demo_self = Returned demo_start)
    by (vm_compute; reflexivity).
  split; [exact Hinit|]. split; [reflexivity|].
  destruct (@inventory_from_deltas demo_numpy demo_self (fst demo_start)
              (snd demo_start) 20%nat Hinit) as (new & Hh & Hx & _).
  exists new. split; [exact Hh | exact Hx].
Defined.

Lemma last_entry_is_state_witness :
  @run_init demo_numpy demo_self = Returned demo_start /\
  last_entry_shows_state
    (fst (@state_after demo_numpy 5 (fst demo_start) (snd demo_start))).
Proof.
  assert (Hinit : @run_init demo_numpy demo_self = Returned demo_start)
    by (vm_compute; reflexivity).
  split; [exact Hinit|].
  exact (@last_entry_is_state demo_numpy demo_self (fst demo_start)
           (snd demo_start) 5%nat Hinit).
Defined.

Lemma customer_entries_consistent_witness :
  Forall customer_entry_consistent (self_history demo_self) /\
  @run_init demo_numpy demo_self = Returned demo_start /\
  @run demo_numpy 20 demo_self = Returned demo_outcome /\
  Forall customer_entry_consistent (fst (snd demo_outcome)).
Proof.
  assert (Hh : Forall customer_entry_consistent (self_history demo_self))
    by constructor.
  assert (Hinit : @run_init demo_numpy demo_self = Returned demo_start)
    by (vm_compute; reflexivity).
  assert (Hrun : @run demo_numpy 20 demo_self = Returned demo_outcome)
    by (vm_compute; reflexivity).
  split; [exact Hh|]. split; [exact Hinit|]. split; [exact Hrun|].
  exact (proj2 (@customer_entries_consistent demo_numpy demo_self
                  (fst demo_start) (snd demo_start) 20%nat Hh Hinit)
           (fst demo_outcome) (fst (snd demo_outcome))
           (snd (snd demo_outcome)) Hrun).
Defined.

Lemma order_entries_consistent_witness :
  valid_levels demo_self /\
  Forall (order_entry_consistent 2 4) (self_history demo_self) /\
  @run_init demo_numpy demo_self = Returned demo_start /\
  @run demo_numpy 20 demo_self = Returned demo_outcome /\
  Forall (order_entry_consistent 2 4) (fst (snd demo_outcome)).
Proof.
  assert (Hv : valid_levels demo_self) by (unfold valid_levels; cbn; lia).
  assert (Hh : Forall (order_entry_consistent (self_s demo_self)
                                              (self_S demo_self))
                      (self_history demo_self)) by constructor.
  assert (Hinit : @run_init demo_numpy demo_self = Returned demo_start)
    by (vm_compute; reflexivity).
  assert (Hrun : @run demo_numpy 20 demo_self = Returned demo_outcome)
    by (vm_compute; reflexivity).
  split; [exact Hv|]. split; [exact Hh|]. split; [exact Hinit|].
  split; [exact Hrun|].
  exact (proj2 (@order_entries_consistent demo_numpy demo_self
                  (fst demo_start) (snd demo_start) 20%nat Hv Hh Hinit)
           (fst demo_outcome) (fst (snd demo_outcome))
           (snd (snd demo_outcome)) Hrun).
Defined.


Lemma run_keeps_parameters_witness :
  @run demo_numpy 20 demo_self = Returned demo_outcome /\
  config (fst demo_outcome) = config demo_self /\
  self_df_log (fst demo_outcome) = Some (fst (snd demo_outcome)).
Proof.
  assert (Hrun : @run demo_numpy 20 demo_self = Returned demo_outcome)
    by (vm_compute; reflexivity).
  split; [exact Hrun|].
  destruct (@run_keeps_parameters demo_numpy 20 demo_self (fst demo_outcome)
              (fst (snd demo_outcome)) (snd (snd demo_outcome)) Hrun)
    as (Hc & _ & Hd & _).
  split; [exact Hc | exact Hd].
Defined.

(** Reorder point zero: a revenue of [100] and no ordering cost. *)
Lemma zero_reorder_point_no_ordering_cost_witness :
  self_s (__init__ zero_params) = 0 /\
  0 < self_S (__init__ zero_params) /\
  @run zero_numpy 20 (__init__ zero_params) = Returned zero_outcome /\
  total_revenue (snd (snd zero_outcome)) = 100%float /\
  total_ordering_cost (snd (snd zero_outcome)) = 0%float.
Proof.
  assert (Hrun : @run zero_numpy 20 (__init__ zero_params)
                 = Returned zero_outcome) by (vm_compute; reflexivity).
  split; [reflexivity|]. split; [reflexivity|]. split; [exact Hrun|].
  split; [reflexivity|].
  exact (proj1 (@zero_reorder_point_no_ordering_cost zero_numpy 20
                  (__init__ zero_params) (fst zero_outcome)
                  (fst (snd zero_outcome)) (snd (snd zero_outcome))
                  eq_refl eq_refl Hrun)).
Defined.

(** After the first turn of the scripted run one order is placed and none
    delivered; after all eight, three and three. *)
Lemma orders_delivered_or_in_transit_witness :
  valid_levels demo_self /\
  @run_init demo_numpy demo_self = Returned demo_start /\
  length (filter is_delivery
            (@events demo_numpy 1 (fst demo_start) (snd demo_start)))
    = 0%nat /\
  length (filter is_trigger
            (@events demo_numpy 1 (fst demo_start) (snd demo_start)))
    = (length (filter is_delivery
                 (@events demo_numpy 1 (fst demo_start) (snd demo_start)))
       + (if (0 <? self_y (fst (@state_after demo_numpy 1 (fst demo_start)
                                  (snd demo_start))))%Z
          then 1 else 0))%nat.
Proof.
  assert (Hv : valid_levels demo_self) by (unfold valid_levels; cbn; lia).
  assert (Hinit : @run_init demo_numpy demo_self = Returned demo_start)
    by (vm_compute; reflexivity).
  split; [exact Hv|]. split; [exact Hinit|]. split; [reflexivity|].
  exact (@orders_delivered_or_in_transit demo_numpy demo_self
           (fst demo_start) (snd demo_start) 1%nat Hv Hinit).
Defined.

Lemma customer_arrivals_within_horizon_witness :
  Forall (fun e => is_customer_label (log_event_type e) = true ->
                   PrimFloat.ltb (self_T demo_self) (log_time e) = false)
         (self_history demo_self) /\
  @run_init demo_numpy demo_self = Returned demo_start /\
  Forall (fun e => is_customer_label (log_event_type e) = true ->
                   PrimFloat.ltb (self_T demo_self) (log_time e) = false)
         (self_history (fst (@state_after demo_numpy 20 (fst demo_start)
                               (snd demo_start)))).
Proof.
  assert (Hh : Forall (fun e =>
                         is_customer_label (log_event_type e) = true ->
                         PrimFloat.ltb (self_T demo_self) (log_time e)
                           = false)
                      (self_history demo_self)) by constructor.
  assert (Hinit : @run_init demo_numpy demo_self = Returned demo_start)
    by (vm_compute; reflexivity).
  split; [exact Hh|]. split; [exact Hinit|].
  exact (proj1 (@customer_arrivals_within_horizon demo_numpy demo_self
                  (fst demo_start) (snd demo_start) 20%nat Hh Hinit)).
Defined.

(** The sweep over [s] for [S = 4]: four runs, at [s = 0, 1, 2, 3]. *)
Lemma sweeps_over_valid_levels_witness :
  0 <= p_s demo_params /\
  @sensitivity_s demo_numpy 20 demo_params = Returned demo_sweep /\
  snd demo_sweep = [0; 1; 2; 3] /\
  Forall (fun val => valid_levels (__init__ (set_s demo_params val)))
         (snd demo_sweep).
Proof.
  assert (Hs : 0 <= p_s demo_params) by (cbn; lia).
  assert (Hsweep : @sensitivity_s demo_numpy 20 demo_params
                   = Returned demo_sweep) by (vm_compute; reflexivity).
  split; [exact Hs|]. split; [exact Hsweep|]. split; [reflexivity|].
  destruct (proj1 (@sweeps_over_valid_levels demo_numpy 20 demo_params Hs)
              (fst demo_sweep) (snd demo_sweep) Hsweep)
    as (_ & _ & _ & Hvalid).
  exact Hvalid.
Defined.

(** The search up to [s = 10] and [S = 10]: four rows. *)
Lemma search_covers_grid_witness :
  @optimize demo_numpy 20 demo_params 10 10 = Returned demo_search /\
  map (fun row => (row_s row, row_S row)) (fst (fst demo_search))
    = [(0, 5); (0, 10); (2, 7); (4, 9)] /\
  Forall (row_in_grid 10 10) (fst (fst demo_search)).
Proof.
  assert (Hopt : @optimize demo_numpy 20 demo_params 10 10
                 = Returned demo_search) by (vm_compute; reflexivity).
  split; [exact Hopt|]. split; [reflexivity|].
  exact (proj1 (proj2 (@search_covers_grid demo_numpy 20 demo_params 10 10
                         (fst (fst demo_search)) (snd (fst demo_search))
                         (snd demo_search) Hopt))).
Defined.

(** The best of the four rows is the pair [(0, 10)]. *)
Lemma search_returns_best_witness :
  @optimize demo_numpy 20 demo_params 10 10 = Returned demo_search /\
  snd demo_search = (0, 10) /\
  Forall (fun row =>
            PrimFloat.ltb (snd (fst demo_search)) (row_Profit row) = false)
         (fst (fst demo_search)).
Proof.
  assert (Hopt : @optimize demo_numpy 20 demo_params 10 10
                 = Returned demo_search) by (vm_compute; reflexivity).
  split; [exact Hopt|]. split; [reflexivity|].
  exact (proj1 (@search_returns_best demo_numpy 20 demo_params 10 10
                  (fst (fst demo_search)) (snd (fst demo_search))
                  (snd demo_search) Hopt)).
Defined.

(** A run on an object left in the middle of a day, with the attributes of
    the scripted run: the same log and summary as on the fresh object. *)
Lemma run_ignores_earlier_state_witness :
  config stockout_state = config demo_self /\
  self_history demo_self = [] /\
  @run demo_numpy 20 demo_self = Returned demo_outcome /\
  exists b',
    @run demo_numpy 20 stockout_state =
      Returned (b', (self_history stockout_state ++ fst (snd demo_outcome),
                     snd (snd demo_outcome))).
Proof.
  assert (Hrun : @run demo_numpy 20 demo_self = Returned demo_outcome)
    by (vm_compute; reflexivity).
  split; [reflexivity|]. split; [reflexivity|]. split; [exact Hrun|].
  exact (@run_ignores_earlier_state demo_numpy 20 demo_self stockout_state
           (fst demo_outcome) (fst (snd demo_outcome))
           (snd (snd demo_outcome)) eq_refl eq_refl Hrun).
Defined.

(** A horizon of [0.5] and a first arrival at [0.69]: a holding cost of
    [1 * 4 * 0.5]. *)
Lemma first_arrival_beyond_horizon_witness :
  @run_init demo_numpy (__init__ short_params) = Returned short_start /\
  PrimFloat.ltb (self_T (__init__ short_params)) (self_t_C (fst short_start))
    = true /\
  exists self' summary,
    @run demo_numpy 1 (__init__ short_params) =
      Returned (self', ([initial_entry 4], summary)) /\
    total_holding_cost summary = 2%float.
Proof.
  assert (Hinit : @run_init demo_numpy (__init__ short_params)
                  = Returned short_start) by (vm_compute; reflexivity).
  split; [exact Hinit|]. split; [reflexivity|].
  destruct (@first_arrival_beyond_horizon demo_numpy 0%nat
              (__init__ short_params) (fst short_start) (snd short_start)
              Hinit eq_refl)
    as (self' & summary & Hrun & _ & _ & HH).
  exists self', summary. split; [exact Hrun | exact HH].
Defined.
